(** * Page reconstruction of the document-intelligence helper

    A shallow embedding of
    [code/backend/batch/utilities/helpers/azure_document_intelligence_helper.py]:
    the class [AzureDocumentIntelligenceClient] with its role table
    [form_recognizer_role_to_html], the table renderer [_table_to_html] and
    the page reconstructor [begin_analyze_document_from_url].

    Python [int] is [Z], Python [str] is [string] (one [ascii] per
    character, so [len] is [String.length]), a [dict] keyed by offsets is a
    [gmap Z string], a [set] of table ids is a [gset Z], and a raised
    exception is the [Raise] branch of [result]. *)

From Stdlib Require Import ZArith String Ascii List Sorting.Sorted Sorting.Permutation.
From Stdlib Require Import DecimalString.
From stdpp Require Import base option list gmap strings sorting.

Local Open Scope string_scope.
Local Open Scope list_scope.
Local Open Scope Z_scope.

(** ** Python values *)

Module Py.

(** The exceptions the module can see.  [IndexError] is what [l[i]] and
    [s[i]] raise; [ServiceError] stands for an error of the SDK client or
    its poller that derives from [Exception]; [ValueError] carries its
    message and its [__cause__]. [KeyboardInterrupt] and [SystemExit] derive
    from [BaseException] only; here they reach the function from the
    blocking call to the service. Python [int] has no machine bound here:
    the index-size and memory limits of CPython are not modelled. *)
Inductive exn : Type :=
| IndexError (msg : string)
| ServiceError (msg : string)
| ValueError (msg : string) (cause : exn)
| KeyboardInterrupt
| SystemExit.

(** [str(e)] *)
Definition str_exn (e : exn) : string :=
  match e with
  | IndexError m => m
  | ServiceError m => m
  | ValueError m _ => m
  | KeyboardInterrupt => EmptyString
  | SystemExit => EmptyString
  end.

(** [isinstance(e, Exception)]: what [except Exception] catches. *)
Definition is_exception (e : exn) : bool :=
  match e with
  | IndexError _ | ServiceError _ | ValueError _ _ => true
  | KeyboardInterrupt | SystemExit => false
  end.

Inductive result (A : Type) : Type :=
| Ok (a : A)
| Raise (e : exn).
Global Arguments Ok {A} a.
Global Arguments Raise {A} e.

Global Instance result_ret : MRet result := @Ok.
Global Instance result_bind : MBind result := fun A B f m =>
  match m with
  | Ok a => f a
  | Raise e => Raise e
  end.

(** A [for] loop whose body may raise, threading the loop state. *)
Fixpoint for_each {A S : Type} (body : S -> A -> result S) (l : list A) (s : S)
  : result S :=
  match l with
  | [] => Ok s
  | x :: l' => s' ← body s x; for_each body l' s'
  end.

(** [enumerate(l)] counting from [n]. *)
Fixpoint enumerate_from {A : Type} (n : Z) (l : list A) : list (Z * A) :=
  match l with
  | [] => []
  | x :: l' => (n, x) :: enumerate_from (n + 1) l'
  end.

Definition enumerate {A : Type} (l : list A) : list (Z * A) := enumerate_from 0 l.

(** [range(n)]: empty when [n <= 0]. *)
Definition range (n : Z) : list Z := seqZ 0 n.

(** [l[i]] on a list: a negative index counts from the end, anything
    outside [-len, len) raises. *)
Definition list_index {A : Type} (l : list A) (i : Z) : result A :=
  let n := Z.of_nat (length l) in
  let j := if i <? 0 then i + n else i in
  if (0 <=? j) && (j <? n) then
    match l !! Z.to_nat j with
    | Some x => Ok x
    | None => Raise (IndexError "list index out of range")
    end
  else Raise (IndexError "list index out of range").

(** [s[i]] on a string, same index rules. *)
Definition str_index (s : string) (i : Z) : result ascii :=
  let n := Z.of_nat (String.length s) in
  let j := if i <? 0 then i + n else i in
  if (0 <=? j) && (j <? n) then
    match String.get (Z.to_nat j) s with
    | Some c => Ok c
    | None => Raise (IndexError "string index out of range")
    end
  else Raise (IndexError "string index out of range").

(** [f"{n}"] for an [int]. *)
Definition str_int (n : Z) : string := NilZero.string_of_int (Z.to_int n).

(** [s.replace(c, by)] for a one-character pattern. *)
Fixpoint replace (c : ascii) (by_ : string) (s : string) : string :=
  match s with
  | EmptyString => EmptyString
  | String a s' =>
      if Ascii.eqb a c then by_ +:+ replace c by_ s'
      else String a (replace c by_ s')
  end.

(** [sorted(l, key=key)]: stable, ascending. *)
Fixpoint insert_by {A : Type} (key : A -> Z) (x : A) (l : list A) : list A :=
  match l with
  | [] => [x]
  | y :: l' => if key x <=? key y then x :: y :: l' else y :: insert_by key x l'
  end.

Fixpoint sorted {A : Type} (key : A -> Z) (l : list A) : list A :=
  match l with
  | [] => []
  | x :: l' => insert_by key x (sorted key l')
  end.

Definition dquote : string := String "034"%char EmptyString.
Definition squote : ascii := "039"%char.

(** [html.escape(s)] of the standard library, with its default
    [quote=True]: five replacements, the ampersand first. *)
Definition html_escape (s : string) : string :=
  let s := replace "&"%char "&amp;" s in
  let s := replace "<"%char "&lt;" s in
  let s := replace ">"%char "&gt;" s in
  let s := replace "034"%char "&quot;" s in
  replace squote "&#x27;" s.

End Py.
Import Py.

(** ** The analysis result, as the code reads it *)

Record DocumentSpan := { span_offset : Z; span_length : Z }.

Record BoundingRegion := { page_number : Z }.

Record DocumentTableCell := {
  kind : option string;
  row_index : Z;
  column_index : Z;
  row_span : option Z;
  column_span : option Z;
  cell_content : string
}.

Record DocumentTable := {
  row_count : Z;
  cells : list DocumentTableCell;
  bounding_regions : list BoundingRegion;
  table_spans : list DocumentSpan
}.

Record DocumentParagraph := {
  role : option string;
  paragraph_spans : list DocumentSpan
}.

Record DocumentPage := { page_spans : list DocumentSpan }.

(** [paragraphs] and [tables] may be missing or [None]: [None] here. *)
Record AnalyzeResult := {
  content : string;
  pages : list DocumentPage;
  paragraphs : option (list DocumentParagraph);
  tables : option (list DocumentTable)
}.

(** One entry of the page map (a dict with these three keys). *)
Record PageRecord := {
  rec_page_number : Z;
  rec_offset : Z;
  rec_page_text : string
}.

(** ** [form_recognizer_role_to_html] *)

Definition form_recognizer_role_to_html : list (string * option string) :=
  [ ("title", Some "h1");
    ("sectionHeading", Some "h2");
    ("pageHeader", None);
    ("pageFooter", None);
    ("paragraph", Some "p") ].

(** [d.get(k)] on that dict: the stored value, [None] for a missing key. *)
Fixpoint dict_get (d : list (string * option string)) (k : string) : option string :=
  match d with
  | [] => None
  | (k', v) :: d' => if String.eqb k' k then v else dict_get d' k
  end.

(** ** [_table_to_html] *)

Definition cell_tag (cell : DocumentTableCell) : string :=
  if bool_decide (kind cell = Some "columnHeader") then "th" else "td".

Definition cell_html (table_html : string) (cell : DocumentTableCell) : string :=
  let tag := cell_tag cell in
  let cell_spans := EmptyString in
  let cell_spans :=
    match column_span cell with
    | Some n => if 1 <? n
                then cell_spans +:+ " colspan=" +:+ dquote +:+ str_int n +:+ dquote
                else cell_spans
    | None => cell_spans
    end in
  let cell_spans :=
    match row_span cell with
    | Some n => if 1 <? n
                then cell_spans +:+ " rowspan=" +:+ dquote +:+ str_int n +:+ dquote
                else cell_spans
    | None => cell_spans
    end in
  table_html +:+
    ("<" +:+ tag +:+ cell_spans +:+ ">" +:+ html_escape (cell_content cell)
         +:+ "</" +:+ tag +:+ ">").

Definition table_rows (table : DocumentTable) : list (list DocumentTableCell) :=
  map (fun i =>
         sorted column_index
           (List.filter (fun cell => row_index cell =? i) (cells table)))
      (range (row_count table)).

Definition row_html (table_html : string) (row_cells : list DocumentTableCell) : string :=
  let table_html := table_html +:+ "<tr>" in
  let table_html := fold_left cell_html row_cells table_html in
  table_html +:+ "</tr>".

Definition _table_to_html (table : DocumentTable) : string :=
  let table_html := "<table>" in
  let rows := table_rows table in
  let table_html := fold_left row_html rows table_html in
  table_html +:+ "</table>".

(** ** [begin_analyze_document_from_url] *)

(** [paragraph.role if paragraph.role is not None else "paragraph"] *)
Definition role_or_default (paragraph : DocumentParagraph) : string :=
  match role paragraph with
  | Some r => r
  | None => "paragraph"
  end.

(** The body of the loop over the paragraphs: both dicts get one store. *)
Definition index_paragraph (st : gmap Z string * gmap Z string)
    (paragraph : DocumentParagraph) : result (gmap Z string * gmap Z string) :=
  let '(roles_start, roles_end) := st in
  span0 ← list_index (paragraph_spans paragraph) 0;
  let para_start := span_offset span0 in
  span0' ← list_index (paragraph_spans paragraph) 0;
  span0'' ← list_index (paragraph_spans paragraph) 0;
  let para_end := span_offset span0' + span_length span0'' in
  let roles_start := <[para_start := role_or_default paragraph]> roles_start in
  let roles_end := <[para_end := role_or_default paragraph]> roles_end in
  Ok (roles_start, roles_end).

(** Lines 97-109: the two offset-to-role dicts. *)
Definition index_roles (results : AnalyzeResult)
  : result (gmap Z string * gmap Z string) :=
  match paragraphs results with
  | Some ((_ :: _) as ps) => for_each index_paragraph ps (∅, ∅)
  | _ => Ok (∅, ∅)
  end.

(** Lines 112-118: the list comprehension selecting the page's tables. *)
Fixpoint select_tables (page_num : Z) (ts : list DocumentTable)
  : result (list DocumentTable) :=
  match ts with
  | [] => Ok []
  | table :: ts' =>
      region0 ← list_index (bounding_regions table) 0;
      rest ← select_tables page_num ts';
      Ok (if page_number region0 =? page_num + 1 then table :: rest else rest)
  end.

Definition tables_on_page (results : AnalyzeResult) (page_num : Z)
  : result (list DocumentTable) :=
  match tables results with
  | Some ((_ :: _) as ts) => select_tables page_num ts
  | _ => Ok []
  end.

(** Lines 127-130: one span of one table written into [table_chars]. *)
Definition mark_span (page_offset page_length table_id : Z)
    (table_chars : list Z) (span : DocumentSpan) : list Z :=
  fold_left
    (fun table_chars i =>
       let idx := span_offset span - page_offset + i in
       if (0 <=? idx) && (idx <? page_length)
       then <[Z.to_nat idx := table_id]> table_chars
       else table_chars)
    (range (span_length span)) table_chars.

Definition mark_table (page_offset page_length : Z)
    (table_chars : list Z) (entry : Z * DocumentTable) : list Z :=
  let '(table_id, table) := entry in
  fold_left (mark_span page_offset page_length table_id)
            (table_spans table) table_chars.

(** Lines 123-130. *)
Definition mark_tables (page_offset page_length : Z)
    (tables_on_page : list DocumentTable) : list Z :=
  let table_chars := replicate (Z.to_nat page_length) (-1) in
  fold_left (mark_table page_offset page_length)
            (enumerate tables_on_page) table_chars.

(** [f"<{html_role}>"] when the role has a tag, nothing otherwise. *)
Definition open_tag (html_role : option string) : string :=
  match html_role with
  | Some h => "<" +:+ h +:+ ">"
  | None => EmptyString
  end.

(** [f"</{html_role}>"] when the role has a tag, nothing otherwise. *)
Definition close_tag (html_role : option string) : string :=
  match html_role with
  | Some h => "</" +:+ h +:+ ">"
  | None => EmptyString
  end.

Section Scan.
Variable content_ : string.
Variables roles_start roles_end : gmap Z string.
Variable page_offset : Z.
Variable tables_on_page_ : list DocumentTable.

(** Lines 136-153: the body of the loop over [enumerate(table_chars)];
    the state is [(page_text, added_tables)]. *)
Definition scan_step (st : string * gset Z) (entry : Z * Z)
  : result (string * gset Z) :=
  let '(page_text, added_tables) := st in
  let '(idx, table_id) := entry in
  if table_id =? -1 then
    let position := page_offset + idx in
    let page_text :=
      match roles_start !! position with
      | Some role =>
          match dict_get form_recognizer_role_to_html role with
          | Some html_role => page_text +:+ ("<" +:+ html_role +:+ ">")
          | None => page_text
          end
      | None => page_text
      end in
    let page_text :=
      match roles_end !! position with
      | Some role =>
          match dict_get form_recognizer_role_to_html role with
          | Some html_role => page_text +:+ ("</" +:+ html_role +:+ ">")
          | None => page_text
          end
      | None => page_text
      end in
    c ← str_index content_ (page_offset + idx);
    Ok (page_text +:+ String c EmptyString, added_tables)
  else if bool_decide (table_id ∉ added_tables) then
    table ← list_index tables_on_page_ table_id;
    Ok (page_text +:+ _table_to_html table, {[table_id]} ∪ added_tables)
  else Ok (page_text, added_tables).

Definition scan (table_chars : list (Z * Z)) (st : string * gset Z)
  : result (string * gset Z) :=
  for_each scan_step table_chars st.
End Scan.

(** Lines 112-155: the text of one page, trailing space included. *)
Definition page_text_of (results : AnalyzeResult)
    (roles_start roles_end : gmap Z string) (page_num : Z) (page : DocumentPage)
  : result string :=
  tables_on_page ← tables_on_page results page_num;
  span0 ← list_index (page_spans page) 0;
  let page_offset := span_offset span0 in
  span0' ← list_index (page_spans page) 0;
  let page_length := span_length span0' in
  let table_chars := mark_tables page_offset page_length tables_on_page in
  st ← scan (content results) roles_start roles_end page_offset tables_on_page
            (enumerate table_chars) (EmptyString, ∅);
  Ok (fst st +:+ " ").

(** Lines 111-159: the body of the loop over [enumerate(pages)]; the state
    is [(page_map, offset)]. *)
Definition page_step (results : AnalyzeResult)
    (roles_start roles_end : gmap Z string)
    (st : list PageRecord * Z) (entry : Z * DocumentPage)
  : result (list PageRecord * Z) :=
  let '(page_map, offset) := st in
  let '(page_num, page) := entry in
  page_text ← page_text_of results roles_start roles_end page_num page;
  let page_map :=
    page_map ++ [{| rec_page_number := page_num;
                    rec_offset := offset;
                    rec_page_text := page_text |}] in
  Ok (page_map, offset + Z.of_nat (String.length page_text)).

(** Lines 96-161: what the [try] block does with the poller's result. *)
Definition reconstruct (results : AnalyzeResult) : result (list PageRecord) :=
  roles ← index_roles results;
  st ← for_each (page_step results (fst roles) (snd roles))
                (enumerate (pages results)) ([], 0);
  Ok (fst st).

Section Client.
(** [self.document_intelligence_client.begin_analyze_document(...)] followed
    by [poller.result()]: the service, given the model id and the url. *)
Variable begin_analyze_document : string -> string -> result AnalyzeResult.
(** [traceback.format_exc()] while handling the exception. *)
Variable format_exc : exn -> string.

Definition begin_analyze_document_from_url (source_url : string)
    (use_layout : bool) : result (list PageRecord) :=
  let model_id := if use_layout then "prebuilt-layout" else "prebuilt-read" in
  let attempt :=
    document_intelligence_results ← begin_analyze_document model_id source_url;
    reconstruct document_intelligence_results in
  match attempt with
  | Ok page_map => Ok page_map
  | Raise e =>
      if is_exception e
      then Raise (ValueError ("Error: " +:+ format_exc e +:+ ". Error: "
                                +:+ str_exn e) e)
      else Raise e
  end.
End Client.

(** ** The table format in the words of the specification *)

Module Spec.

(** Concatenation of a list of strings. *)
Definition join (l : list string) : string := fold_right String.append EmptyString l.

(** HTML escaping, one character at a time. *)
Definition escape_char (c : ascii) : string :=
  if Ascii.eqb c "&" then "&amp;"
  else if Ascii.eqb c "<" then "&lt;"
  else if Ascii.eqb c ">" then "&gt;"
  else if Ascii.eqb c "034" then "&quot;"
  else if Ascii.eqb c "039" then "&#x27;"
  else String c EmptyString.

Fixpoint escape (s : string) : string :=
  match s with
  | EmptyString => EmptyString
  | String c s' => escape_char c +:+ escape s'
  end.

(** [ name="N"] when the span is given and greater than 1, nothing otherwise. *)
Definition span_attr (name : string) (span : option Z) : string :=
  match span with
  | Some n => if 1 <? n then " " +:+ name +:+ "=" +:+ dquote +:+ str_int n +:+ dquote
              else EmptyString
  | None => EmptyString
  end.

(** One cell: [<th>] for a column header, [<td>] otherwise. *)
Definition cell (c : DocumentTableCell) : string :=
  let tag := if bool_decide (kind c = Some "columnHeader") then "th" else "td" in
  "<" +:+ tag +:+ span_attr "colspan" (column_span c)
      +:+ span_attr "rowspan" (row_span c) +:+ ">"
      +:+ escape (cell_content c) +:+ "</" +:+ tag +:+ ">".

Definition row (row_cells : list DocumentTableCell) : string :=
  "<tr>" +:+ join (map cell row_cells) +:+ "</tr>".

Definition table (rows : list (list DocumentTableCell)) : string :=
  "<table>" +:+ join (map row rows) +:+ "</table>".

End Spec.

(** [a] comes no later than [b] in the order [sorted] produces. *)
Definition key_le {A : Type} (key : A -> Z) (a b : A) : Prop := key a <= key b.

(** ** The offsets of a page map *)

Definition text_length (r : PageRecord) : Z :=
  Z.of_nat (String.length (rec_page_text r)).

(** The records of [page_map] start at [start], each one where the text of
    the one before it ends, and the last text ends at [stop]. *)
Fixpoint chained (start : Z) (page_map : list PageRecord) (stop : Z) : Prop :=
  match page_map with
  | [] => stop = start
  | r :: page_map' =>
      rec_offset r = start /\ chained (start + text_length r) page_map' stop
  end.

(** ** Sample documents *)

Module Sample.

Definition span (o l : Z) : DocumentSpan := {| span_offset := o; span_length := l |}.
Definition page (o l : Z) : DocumentPage := {| page_spans := [span o l] |}.
Definition para (r : option string) (o l : Z) : DocumentParagraph :=
  {| role := r; paragraph_spans := [span o l] |}.
Definition data_cell (r c : Z) (k : option string) (s : string) : DocumentTableCell :=
  {| kind := k; row_index := r; column_index := c;
     row_span := None; column_span := None; cell_content := s |}.

(** A service that always answers with [r]. *)
Definition serve (r : AnalyzeResult) (model_id source_url : string)
  : result AnalyzeResult := Ok r.

Definition no_trace (e : exn) : string := "Traceback".

(** Two pages, a title on the first, a one-cell table on the second. *)
Definition title_and_table : AnalyzeResult :=
  {| content := "Hello World ABC";
     pages := [page 0 11; page 12 3];
     paragraphs := Some [para (Some "title") 0 5];
     tables := Some [ {| row_count := 1;
                         cells := [ {| kind := Some "columnHeader";
                                       row_index := 0; column_index := 0;
                                       row_span := None; column_span := Some 3;
                                       cell_content := "<script>" |} ];
                         bounding_regions := [ {| page_number := 2 |} ];
                         table_spans := [span 12 3] |} ] |}.

(** A service that is down. *)
Definition unavailable (model_id source_url : string) : result AnalyzeResult :=
  Raise (ServiceError "503 Service Unavailable").

(** A service call interrupted from the keyboard while it blocks. *)
Definition interrupted (model_id source_url : string) : result AnalyzeResult :=
  Raise KeyboardInterrupt.

(** A page without any span: [page.spans[0]] raises. *)
Definition spanless_page : AnalyzeResult :=
  {| content := "Hello"; pages := [page 0 5; {| page_spans := [] |}];
     paragraphs := None; tables := None |}.

(** Two paragraphs that start and end at the same offsets. *)
Definition twice_indexed : AnalyzeResult :=
  {| content := "Hello World";
     pages := [page 0 11];
     paragraphs := Some [para (Some "title") 0 5; para (Some "sectionHeading") 0 5];
     tables := None |}.

(** A title that ends where a section heading begins. *)
Definition adjacent_roles : AnalyzeResult :=
  {| content := "abcdef";
     pages := [page 0 6];
     paragraphs := Some [para (Some "title") 0 3; para (Some "sectionHeading") 3 3];
     tables := None |}.

Definition adjacent_starts : gmap Z string :=
  <[3 := "sectionHeading"]> (<[0 := "title"]> ∅).
Definition adjacent_ends : gmap Z string :=
  <[6 := "sectionHeading"]> (<[3 := "title"]> ∅).

(** A title that ends exactly where the first page ends and the second begins. *)
Definition abutting_pages : AnalyzeResult :=
  {| content := "abcdef";
     pages := [page 0 3; page 3 3];
     paragraphs := Some [para (Some "title") 0 3];
     tables := None |}.

Definition abutting_pages_map : list PageRecord :=
  [ {| rec_page_number := 0; rec_offset := 0; rec_page_text := "<h1>abc " |};
    {| rec_page_number := 1; rec_offset := 8; rec_page_text := "</h1>def " |} ].

(** A table whose first bounding region is page 1 and whose only span
    lies in the character range of page 2. *)
Definition stray_table : DocumentTable :=
  {| row_count := 1;
     cells := [data_cell 0 0 None "cd"];
     bounding_regions := [ {| page_number := 1 |} ];
     table_spans := [span 3 2] |}.

Definition stray_span : AnalyzeResult :=
  {| content := "ab cd";
     pages := [page 0 2; page 3 2];
     paragraphs := None;
     tables := Some [stray_table] |}.

(** A title over [5,10) and a later paragraph that starts at the same offset. *)
Definition overwritten_title : AnalyzeResult :=
  {| content := "0123456789abcde";
     pages := [page 0 15];
     paragraphs := Some [para (Some "title") 5 5; para None 5 3];
     tables := None |}.

(** A title over [5,10) alone on a page that goes on after it. *)
Definition lone_title : AnalyzeResult :=
  {| content := "0123456789abcde";
     pages := [page 0 15];
     paragraphs := Some [para (Some "title") 5 5];
     tables := None |}.

(** The 2x2 table of the end-to-end scenario: header cells A, B in row 0,
    cells C, D of kind [k] in row 1, first seen on page 2, with one span. *)
Definition abcd_table (o l : Z) (k : option string) : DocumentTable :=
  {| row_count := 2;
     cells := [ data_cell 0 0 (Some "columnHeader") "A";
                data_cell 0 1 (Some "columnHeader") "B";
                data_cell 1 0 k "C";
                data_cell 1 1 k "D" ];
     bounding_regions := [ {| page_number := 2 |} ];
     table_spans := [span o l] |}.

(** Page 1 is the text "Hello World"; page 2 is the span [(o, l)], which is
    also the table's span. *)
Definition hello_and_table (rest : string) (o l : Z) (k : option string)
  : AnalyzeResult :=
  {| content := "Hello World" +:+ rest;
     pages := [page 0 11; page o l];
     paragraphs := None;
     tables := Some [abcd_table o l k] |}.

Definition hello_and_table_map : list PageRecord :=
  [ {| rec_page_number := 0; rec_offset := 0; rec_page_text := "Hello World " |};
    {| rec_page_number := 1; rec_offset := 12;
       rec_page_text :=
         "<table><tr><th>A</th><th>B</th></tr><tr><td>C</td><td>D</td></tr></table> " |} ].

(** A paragraph without spans between two ordinary ones. *)
Definition spanless_paragraph : AnalyzeResult :=
  {| content := "Hello World";
     pages := [page 0 11];
     paragraphs := Some [para (Some "title") 0 5;
                         {| role := None; paragraph_spans := [] |};
                         para None 6 5];
     tables := None |}.

(** A table without bounding regions, on a document with one page. *)
Definition regionless_table : AnalyzeResult :=
  {| content := "Hello World";
     pages := [page 0 11];
     paragraphs := None;
     tables := Some [ {| row_count := 0; cells := [];
                         bounding_regions := []; table_spans := [] |} ] |}.

(** A first page of length 0 before a page with text. *)
Definition empty_first_page : AnalyzeResult :=
  {| content := "abc";
     pages := [page 0 0; page 0 3];
     paragraphs := Some [para None 0 3];
     tables := None |}.

(** A page header and an unknown role over a page without tables. *)
Definition header_only : AnalyzeResult :=
  {| content := "Hello World";
     pages := [page 0 11];
     paragraphs := Some [para (Some "pageHeader") 0 5; para (Some "footnote") 6 5];
     tables := None |}.

(** A page whose span runs past the end of the content. *)
Definition overlong_page : AnalyzeResult :=
  {| content := "Hello";
     pages := [page 2 8];
     paragraphs := None;
     tables := None |}.

(** Two tables of page 1 that share the characters 2 and 3; a title starts
    under the first table. *)
Definition overlapping_tables : AnalyzeResult :=
  {| content := "abcdef";
     pages := [page 0 6];
     paragraphs := Some [para (Some "title") 1 2];
     tables := Some [ {| row_count := 0; cells := [];
                         bounding_regions := [ {| page_number := 1 |} ];
                         table_spans := [span 1 3] |};
                      {| row_count := 1; cells := [data_cell 0 0 None "x"];
                         bounding_regions := [ {| page_number := 1 |} ];
                         table_spans := [span 2 2] |} ] |}.

(** A 1x2 table whose cells are listed right to left, with a cell of a
    row the table does not have. *)
Definition shuffled_table : DocumentTable :=
  {| row_count := 1;
     cells := [data_cell 0 1 None "b"; data_cell 7 0 None "lost"; data_cell 0 0 None "a"];
     bounding_regions := [ {| page_number := 1 |} ];
     table_spans := [] |}.

Definition title_and_table_map : list PageRecord :=
  [ {| rec_page_number := 0; rec_offset := 0;
       rec_page_text := "<h1>Hello</h1> World " |};
    {| rec_page_number := 1; rec_offset := 21;
       rec_page_text := "<table><tr><th colspan=" +:+ dquote +:+ "3" +:+ dquote
                          +:+ ">&lt;script&gt;</th></tr></table> " |} ].

End Sample.

(** ** Paragraph boundaries *)

(** [paragraph.spans[0].offset], when there is a first span. *)
Definition para_start (p : DocumentParagraph) : option Z :=
  span_offset <$> head (paragraph_spans p).

(** [paragraph.spans[0].offset + paragraph.spans[0].length] *)
Definition para_end (p : DocumentParagraph) : option Z :=
  (fun s => span_offset s + span_length s) <$> head (paragraph_spans p).

(** The message of the error raised on failure. *)
Definition wrapped_message (format_exc : exn -> string) (e : exn) : string :=
  "Error: " +:+ format_exc e +:+ ". Error: " +:+ str_exn e.

(** What the [try] block computes, for the service [svc]. *)
Definition attempt (svc : string -> string -> result AnalyzeResult)
    (source_url : string) (use_layout : bool) : result (list PageRecord) :=
  results ← svc (if use_layout then "prebuilt-layout" else "prebuilt-read") source_url;
  reconstruct results.

(** ** What the scan reads *)

(** The tag the role dict [roles] gives at [position], if any. *)
Definition html_role_at (roles : gmap Z string) (position : Z) : option string :=
  roles !! position ≫= dict_get form_recognizer_role_to_html.

(** The page's span: [page.spans[0]]. *)
Definition page_span (page : DocumentPage) : option DocumentSpan :=
  head (page_spans page).

(** The first bounding region of a table: [table.bounding_regions[0]]. *)
Definition first_region (table : DocumentTable) : option BoundingRegion :=
  head (bounding_regions table).

(** The same analysis result with another [tables] collection. *)
Definition with_tables (results : AnalyzeResult) (ts : option (list DocumentTable))
  : AnalyzeResult :=
  {| content := content results; pages := pages results;
     paragraphs := paragraphs results; tables := ts |}.

(** Is [pat] a prefix of [s]? *)
Fixpoint starts_with (pat s : string) : bool :=
  match pat, s with
  | EmptyString, _ => true
  | String a pat', String b s' => Ascii.eqb a b && starts_with pat' s'
  | String _ _, EmptyString => false
  end.

(** The number of positions of [s] at which [pat] occurs. *)
Fixpoint occurrences (pat s : string) : nat :=
  match s with
  | EmptyString => if starts_with pat EmptyString then 1%nat else 0%nat
  | String _ s' => ((if starts_with pat s then 1 else 0) + occurrences pat s')%nat
  end.

(** Every mark is the sentinel or the local index of a selected table. *)
Definition mark_ok (bound : Z) (x : Z) : Prop := x = -1 \/ 0 <= x < bound.

(** No boundary of the paragraph's first span is the offset [k]. *)
Definition clear_of (p : DocumentParagraph) (k : Z) : Prop :=
  para_start p <> Some k /\ para_end p <> Some k.

(** ** Further notions used to state what the code does *)

(** The text ends with the page separator. *)
Definition ends_with_space (s : string) : Prop := exists body, s = body +:+ " ".

(** What [l[0]] raises on an empty list. *)
Definition no_first_item : exn := IndexError "list index out of range".

(** What [s[i]] raises outside the string. *)
Definition no_such_char : exn := IndexError "string index out of range".

(** The role has no entry with a tag in [form_recognizer_role_to_html]. *)
Definition tagless (r : string) : Prop :=
  r <> "title" /\ r <> "sectionHeading" /\ r <> "paragraph".

(** One of the table's spans holds the offset [position]. *)
Definition covers (table : DocumentTable) (position : Z) : bool :=
  existsb (fun s => (span_offset s <=? position)
                    && (position <? span_offset s + span_length s))
          (table_spans table).

(** The local id of the last of the enumerated tables that covers
    [position], [none] when no table does. *)
Definition last_covering (position : Z) (entries : list (Z * DocumentTable))
    (none : Z) : Z :=
  fold_left (fun found e => if covers e.2 position then e.1 else found) entries none.

(** The same table with another list of cells. *)
Definition with_cells (table : DocumentTable) (cs : list DocumentTableCell)
  : DocumentTable :=
  {| row_count := row_count table; cells := cs;
     bounding_regions := bounding_regions table;
     table_spans := table_spans table |}.

(** Where a cell stands in its table. *)
Definition cell_position (c : DocumentTableCell) : Z * Z :=
  (row_index c, column_index c).

(** The cell belongs to one of the rows [0 .. row_count-1]. *)
Definition in_rows (table : DocumentTable) (c : DocumentTableCell) : bool :=
  (0 <=? row_index c) && (row_index c <? row_count table).

(** A character that opens or closes markup or an attribute value. *)
Definition is_markup_char (c : ascii) : bool :=
  Ascii.eqb c "<" || Ascii.eqb c ">" || Ascii.eqb c "034" || Ascii.eqb c "039".

Fixpoint has_markup_char (s : string) : bool :=
  match s with
  | EmptyString => false
  | String c s' => is_markup_char c || has_markup_char s'
  end.

(** None of the five characters [html.escape] replaces occurs in [s]. *)
Fixpoint escape_free (s : string) : bool :=
  match s with
  | EmptyString => true
  | String c s' => negb (is_markup_char c || Ascii.eqb c "&") && escape_free s'
  end.

(** The same analysis result with another content string. *)
Definition with_content (results : AnalyzeResult) (s : string) : AnalyzeResult :=
  {| content := s; pages := pages results;
     paragraphs := paragraphs results; tables := tables results |}.

(** Every span the code indexes is there, and every page lies inside the
    content. *)
Definition well_formed (results : AnalyzeResult) : Prop :=
  (forall ps p, paragraphs results = Some ps -> p ∈ ps -> paragraph_spans p <> [])
  /\ (forall ts t, tables results = Some ts -> t ∈ ts -> bounding_regions t <> [])
  /\ (forall page, page ∈ pages results ->
        exists sp, page_span page = Some sp
                   /\ 0 <= span_offset sp
                   /\ span_offset sp + span_length sp
                      <= Z.of_nat (String.length (content results))).

(** * Properties *)

(** ** Strings and loops *)

Lemma append_nil_l (s : string) : EmptyString +:+ s = s.
Proof. reflexivity. Qed.

Lemma append_cons (a : ascii) (s t : string) :
  String a s +:+ t = String a (s +:+ t).
Proof. reflexivity. Qed.

Lemma append_nil_r (s : string) : s +:+ EmptyString = s.
Proof. induction s as [|a s IH]; [done|]. by rewrite append_cons, IH. Qed.

Lemma append_assoc (s t u : string) : (s +:+ t) +:+ u = s +:+ (t +:+ u).
Proof. induction s as [|a s IH]; [done|]. by rewrite !append_cons, IH. Qed.

Lemma length_append (s t : string) :
  String.length (s +:+ t) = (String.length s + String.length t)%nat.
Proof. induction s as [|a s IH]; [done|]. rewrite append_cons. simpl. by rewrite IH. Qed.

Lemma for_each_app {A S : Type} (body : S -> A -> result S) (l1 l2 : list A) (s : S) :
  for_each body (l1 ++ l2) s = (s' ← for_each body l1 s; for_each body l2 s').
Proof.
  revert s. induction l1 as [|x l1 IH]; intros s; simpl; [done|].
  destruct (body s x) as [s'|e]; simpl; [apply IH|done].
Qed.

Lemma for_each_cons {A S : Type} (body : S -> A -> result S) (x : A) (l : list A) (s : S) :
  for_each body (x :: l) s = (s' ← body s x; for_each body l s').
Proof. reflexivity. Qed.

Lemma bind_Ok {A B : Type} (f : A -> result B) (a : A) : (Ok a ≫= f) = f a.
Proof. reflexivity. Qed.

Lemma bind_Raise {A B : Type} (f : A -> result B) (e : exn) : (Raise e ≫= f) = Raise e.
Proof. reflexivity. Qed.

Lemma enumerate_from_app {A : Type} (n : Z) (l1 l2 : list A) :
  enumerate_from n (l1 ++ l2)
  = enumerate_from n l1 ++ enumerate_from (n + Z.of_nat (length l1)) l2.
Proof.
  revert n. induction l1 as [|x l1 IH]; intros n; simpl.
  - by rewrite Z.add_0_r.
  - rewrite IH. do 3 f_equal. lia.
Qed.

Lemma enumerate_from_length {A : Type} (n : Z) (l : list A) :
  length (enumerate_from n l) = length l.
Proof. revert n. induction l as [|x l IH]; intros n; simpl; [done|]. by rewrite IH. Qed.

(** ** [sorted] and [html.escape] *)

Lemma insert_by_perm {A : Type} (key : A -> Z) (x : A) (l : list A) :
  insert_by key x l ≡ₚ x :: l.
Proof.
  induction l as [|y l IH]; simpl; [done|].
  destruct (key x <=? key y); [done|]. rewrite IH. apply Permutation_swap.
Qed.

Lemma sorted_perm {A : Type} (key : A -> Z) (l : list A) : sorted key l ≡ₚ l.
Proof.
  induction l as [|x l IH]; simpl; [done|]. by rewrite insert_by_perm, IH.
Qed.

Lemma insert_by_sorted {A : Type} (key : A -> Z) (x : A) (l : list A) :
  StronglySorted (key_le key) l -> StronglySorted (key_le key) (insert_by key x l).
Proof.
  induction 1 as [|y l Hl IH Hy]; simpl.
  - repeat constructor.
  - destruct (Z.leb_spec (key x) (key y)) as [Hxy|Hxy].
    + constructor; [by constructor|]. constructor; [done|].
      eapply Forall_impl; [exact Hy|]. unfold key_le. intros; simpl in *; lia.
    + constructor; [done|]. rewrite insert_by_perm. constructor; [|done].
      unfold key_le; lia.
Qed.

Lemma sorted_sorted {A : Type} (key : A -> Z) (l : list A) :
  StronglySorted (key_le key) (sorted key l).
Proof.
  induction l as [|x l IH]; simpl; [constructor|]. by apply insert_by_sorted.
Qed.

(** Stability: cells with equal keys keep their order. *)
Lemma insert_by_stable {A : Type} (key : A -> Z) (k : Z) (x : A) (l : list A) :
  StronglySorted (key_le key) l ->
  List.filter (fun a => key a =? k) (insert_by key x l)
  = List.filter (fun a => key a =? k) (x :: l).
Proof.
  induction 1 as [|y l Hl IH Hy]; [done|]. simpl insert_by.
  destruct (Z.leb_spec (key x) (key y)) as [Hxy|Hxy]; [done|].
  change (List.filter ?f (y :: ?r)) with (if f y then y :: List.filter f r else List.filter f r).
  rewrite IH. simpl.
  destruct (Z.eqb_spec (key y) k), (Z.eqb_spec (key x) k); try done. lia.
Qed.

Lemma sorted_stable {A : Type} (key : A -> Z) (k : Z) (l : list A) :
  List.filter (fun a => key a =? k) (sorted key l) = List.filter (fun a => key a =? k) l.
Proof.
  induction l as [|x l IH]; [done|]. simpl sorted.
  rewrite insert_by_stable by apply sorted_sorted. simpl. by rewrite IH.
Qed.

Lemma replace_app (c : ascii) (b s t : string) :
  replace c b (s +:+ t) = replace c b s +:+ replace c b t.
Proof.
  induction s as [|a s IH]; [done|]. rewrite append_cons. simpl.
  destruct (Ascii.eqb a c); by rewrite IH, ?append_assoc.
Qed.

Lemma html_escape_app (s t : string) :
  html_escape (s +:+ t) = html_escape s +:+ html_escape t.
Proof. unfold html_escape. by rewrite !replace_app. Qed.

Lemma html_escape_char (c : ascii) :
  html_escape (String c EmptyString) = Spec.escape_char c.
Proof. destruct c as [[] [] [] [] [] [] [] []]; reflexivity. Qed.

Lemma html_escape_spec (s : string) : html_escape s = Spec.escape s.
Proof.
  induction s as [|c s IH]; [done|].
  change (String c s) with (String c EmptyString +:+ s).
  by rewrite html_escape_app, html_escape_char, IH.
Qed.

(** ** [_table_to_html] against the specified format *)

Lemma span_attr_colspan (acc : string) (span : option Z) :
  match span with
  | Some n => if 1 <? n
              then acc +:+ " colspan=" +:+ dquote +:+ str_int n +:+ dquote
              else acc
  | None => acc
  end = acc +:+ Spec.span_attr "colspan" span.
Proof.
  unfold Spec.span_attr.
  destruct span as [n|]; [destruct (1 <? n)|]; by rewrite ?append_nil_r.
Qed.

Lemma span_attr_rowspan (acc : string) (span : option Z) :
  match span with
  | Some n => if 1 <? n
              then acc +:+ " rowspan=" +:+ dquote +:+ str_int n +:+ dquote
              else acc
  | None => acc
  end = acc +:+ Spec.span_attr "rowspan" span.
Proof.
  unfold Spec.span_attr.
  destruct span as [n|]; [destruct (1 <? n)|]; by rewrite ?append_nil_r.
Qed.

Lemma cell_html_spec (acc : string) (c : DocumentTableCell) :
  cell_html acc c = acc +:+ Spec.cell c.
Proof.
  unfold cell_html, Spec.cell, cell_tag.
  rewrite span_attr_colspan, span_attr_rowspan, html_escape_spec.
  by rewrite append_nil_l, !append_assoc.
Qed.

Lemma fold_cell_html_spec (row_cells : list DocumentTableCell) (acc : string) :
  fold_left cell_html row_cells acc = acc +:+ Spec.join (map Spec.cell row_cells).
Proof.
  revert acc. induction row_cells as [|c l IH]; intros acc; simpl.
  - by rewrite append_nil_r.
  - by rewrite IH, cell_html_spec, append_assoc.
Qed.

Lemma row_html_spec (acc : string) (row_cells : list DocumentTableCell) :
  row_html acc row_cells = acc +:+ Spec.row row_cells.
Proof.
  unfold row_html, Spec.row. by rewrite fold_cell_html_spec, !append_assoc.
Qed.

Lemma fold_row_html_spec (rows : list (list DocumentTableCell)) (acc : string) :
  fold_left row_html rows acc = acc +:+ Spec.join (map Spec.row rows).
Proof.
  revert acc. induction rows as [|r l IH]; intros acc; simpl.
  - by rewrite append_nil_r.
  - by rewrite IH, row_html_spec, append_assoc.
Qed.

Lemma table_to_html_spec (table : DocumentTable) :
  _table_to_html table = Spec.table (table_rows table).
Proof.
  unfold _table_to_html, Spec.table. by rewrite fold_row_html_spec, append_assoc.
Qed.

(** C5. [_table_to_html] returns exactly the specified text: ["<table>"],
    then for each row index [0 .. row_count-1] a ["<tr>"] holding that
    row's cells in ascending [column_index] (a stable rearrangement of the
    cells with that [row_index]), each cell a [th] when its kind is
    [columnHeader] and a [td] otherwise, with [colspan] (resp. [rowspan])
    exactly when [column_span] (resp. [row_span]) exceeds 1 and with its
    content escaped, then ["</tr>"], and ["</table>"] at the end; and
    ["<script>"] is escaped to ["&lt;script&gt;"]. *)
Theorem table_to_html_format (table : DocumentTable) :
  _table_to_html table = Spec.table (table_rows table)
  /\ table_rows table
     = map (fun i => sorted column_index
                       (List.filter (fun c => row_index c =? i) (cells table)))
           (seqZ 0 (row_count table))
  /\ (forall i : Z,
        let row_cells :=
          sorted column_index (List.filter (fun c => row_index c =? i) (cells table)) in
        row_cells ≡ₚ List.filter (fun c => row_index c =? i) (cells table)
        /\ StronglySorted (key_le column_index) row_cells
        /\ forall k, List.filter (fun c => column_index c =? k) row_cells
                     = List.filter (fun c => column_index c =? k)
                         (List.filter (fun c => row_index c =? i) (cells table)))
  /\ html_escape "<script>" = "&lt;script&gt;"
  /\ Spec.span_attr "colspan" (Some 3) = " colspan=" +:+ dquote +:+ "3" +:+ dquote
  /\ Spec.span_attr "colspan" (Some 1) = EmptyString.
Proof.
  split; [|split; [done|split; [|done]]].
  - apply table_to_html_spec.
  - intros i row_cells. subst row_cells.
    split; [apply sorted_perm|]. split; [apply sorted_sorted|].
    intros k. apply sorted_stable.
Qed.

(** ** The running offset *)

Lemma chained_snoc (start stop : Z) (page_map : list PageRecord) (r : PageRecord) :
  chained start page_map stop -> rec_offset r = stop ->
  chained start (page_map ++ [r]) (stop + text_length r).
Proof.
  revert start. induction page_map as [|x l IH]; intros start; simpl.
  - intros -> ->. done.
  - intros [-> Hl] Hr. split; [done|]. by apply IH.
Qed.

Lemma chained_lookup (start stop : Z) (page_map : list PageRecord) :
  chained start page_map stop ->
  (forall r0, page_map !! 0%nat = Some r0 -> rec_offset r0 = start)
  /\ (forall (i : nat) a b, page_map !! i = Some a -> page_map !! S i = Some b ->
        rec_offset b = rec_offset a + text_length a).
Proof.
  revert start. induction page_map as [|x l IH]; intros start; simpl.
  - intros _. split; intros; discriminate.
  - intros [Hx Hl]. destruct (IH _ Hl) as [IH0 IHS]. split.
    + intros r0 [= <-]. done.
    + intros [|i] a b Ha Hb; simpl in *.
      * injection Ha as <-. rewrite Hx. by apply IH0.
      * by eapply IHS.
Qed.

Lemma page_loop_chained (results : AnalyzeResult) (rs re : gmap Z string)
    (l : list (Z * DocumentPage)) (page_map page_map' : list PageRecord)
    (offset offset' : Z) :
  for_each (page_step results rs re) l (page_map, offset) = Ok (page_map', offset') ->
  chained 0 page_map offset -> chained 0 page_map' offset'.
Proof.
  revert page_map offset. induction l as [|[n p] l IH]; intros pm off; simpl.
  - by intros [= <- <-].
  - destruct (page_text_of results rs re n p) as [txt|e]; simpl; [|done].
    intros Hl Hc. eapply IH; [exact Hl|]. by apply chained_snoc.
Qed.

Lemma reconstruct_chained (results : AnalyzeResult) (page_map : list PageRecord) :
  reconstruct results = Ok page_map -> exists stop, chained 0 page_map stop.
Proof.
  unfold reconstruct. destruct (index_roles results) as [[rs re]|e]; simpl; [|done].
  destruct (for_each _ _ _) as [[pm off]|e] eqn:Hl; simpl; [|done].
  intros [= <-]. exists off. by eapply page_loop_chained.
Qed.

Lemma begin_analyze_Ok (svc : string -> string -> result AnalyzeResult)
    (fmt : exn -> string) (url : string) (layout : bool) (page_map : list PageRecord) :
  begin_analyze_document_from_url svc fmt url layout = Ok page_map ->
  exists results,
    svc (if layout then "prebuilt-layout" else "prebuilt-read") url = Ok results
    /\ reconstruct results = Ok page_map.
Proof.
  unfold begin_analyze_document_from_url.
  destruct (svc _ url) as [r|e]; simpl; [|by destruct (is_exception e)].
  destruct (reconstruct r) as [pm|e] eqn:Hr; [|by destruct (is_exception e)].
  intros [= <-]. by exists r.
Qed.

(** C1. In the page map returned by [begin_analyze_document_from_url] the
    first record has offset 0 and each next record starts where the text of
    the one before it ends: [offset[i+1] = offset[i] + len(page_text[i])],
    that is, [len(page_text[i]) = offset[i+1] - offset[i]]. *)
Theorem page_map_offsets (svc : string -> string -> result AnalyzeResult)
    (fmt : exn -> string) (url : string) (layout : bool) (page_map : list PageRecord) :
  begin_analyze_document_from_url svc fmt url layout = Ok page_map ->
  (forall r0, page_map !! 0%nat = Some r0 -> rec_offset r0 = 0)
  /\ (forall (i : nat) a b,
        page_map !! i = Some a -> page_map !! S i = Some b ->
        rec_offset b = rec_offset a + Z.of_nat (String.length (rec_page_text a))
        /\ Z.of_nat (String.length (rec_page_text a)) = rec_offset b - rec_offset a).
Proof.
  intros (r & _ & Hr)%begin_analyze_Ok.
  destruct (reconstruct_chained _ _ Hr) as [stop Hc].
  destruct (chained_lookup _ _ _ Hc) as [H0 HS]. split; [done|].
  intros i a b Ha Hb. specialize (HS i a b Ha Hb). unfold text_length in HS. lia.
Qed.

Lemma page_map_offsets_witness :
  begin_analyze_document_from_url (Sample.serve Sample.title_and_table)
    Sample.no_trace "https://example/doc.pdf" true = Ok Sample.title_and_table_map
  /\ (forall r0, Sample.title_and_table_map !! 0%nat = Some r0 -> rec_offset r0 = 0)
  /\ (forall (i : nat) a b,
        Sample.title_and_table_map !! i = Some a ->
        Sample.title_and_table_map !! S i = Some b ->
        rec_offset b = rec_offset a + Z.of_nat (String.length (rec_page_text a))
        /\ Z.of_nat (String.length (rec_page_text a)) = rec_offset b - rec_offset a).
Proof.
  split; [vm_compute; reflexivity|].
  apply (page_map_offsets (Sample.serve Sample.title_and_table) Sample.no_trace
           "https://example/doc.pdf" true).
  vm_compute; reflexivity.
Defined.

(** ** Failure *)

Lemma page_loop_length (results : AnalyzeResult) (rs re : gmap Z string)
    (l : list (Z * DocumentPage)) (page_map page_map' : list PageRecord)
    (offset offset' : Z) :
  for_each (page_step results rs re) l (page_map, offset) = Ok (page_map', offset') ->
  length page_map' = (length page_map + length l)%nat.
Proof.
  revert page_map offset. induction l as [|[n p] l IH]; intros pm off; simpl.
  - intros [= <- <-]. lia.
  - destruct (page_text_of results rs re n p) as [txt|e]; simpl; [|done].
    intros Hl. rewrite (IH _ _ Hl), length_app. simpl. lia.
Qed.

Lemma reconstruct_length (results : AnalyzeResult) (page_map : list PageRecord) :
  reconstruct results = Ok page_map -> length page_map = length (pages results).
Proof.
  unfold reconstruct. destruct (index_roles results) as [[rs re]|e]; simpl; [|done].
  destruct (for_each _ _ _) as [[pm off]|e] eqn:Hl; simpl; [|done].
  intros [= <-]. rewrite (page_loop_length _ _ _ _ _ _ _ _ Hl).
  unfold enumerate. by rewrite enumerate_from_length.
Qed.

Lemma begin_analyze_attempt (svc : string -> string -> result AnalyzeResult)
    (fmt : exn -> string) (url : string) (layout : bool) :
  begin_analyze_document_from_url svc fmt url layout
  = match attempt svc url layout with
    | Ok page_map => Ok page_map
    | Raise e => if is_exception e
                 then Raise (ValueError (wrapped_message fmt e) e)
                 else Raise e
    end.
Proof. reflexivity. Qed.

(** ** The role dicts *)

Lemma list_index_0_cons {A : Type} (x : A) (l : list A) : list_index (x :: l) 0 = Ok x.
Proof.
  unfold list_index. simpl Z.ltb. cbv iota.
  destruct (Z.ltb_spec 0 (Z.of_nat (length (x :: l)))) as [_|H]; [done|].
  simpl length in H. lia.
Qed.

Lemma list_index_0_head {A : Type} (l : list A) (x : A) :
  head l = Some x -> list_index l 0 = Ok x.
Proof. destruct l as [|y l]; [done|]. intros [= ->]. apply list_index_0_cons. Qed.

Lemma index_paragraph_Ok (rs re : gmap Z string) (p : DocumentParagraph) (s : DocumentSpan) :
  head (paragraph_spans p) = Some s ->
  index_paragraph (rs, re) p
  = Ok (<[span_offset s := role_or_default p]> rs,
        <[span_offset s + span_length s := role_or_default p]> re).
Proof. intros H. unfold index_paragraph. by rewrite (list_index_0_head _ _ H). Qed.

Lemma index_loop_total (l : list DocumentParagraph) (st : gmap Z string * gmap Z string) :
  (forall p, p ∈ l -> paragraph_spans p <> []) ->
  exists st', for_each index_paragraph l st = Ok st'.
Proof.
  revert st. induction l as [|p l IH]; intros [rs re] Hl; [by eexists|].
  assert (paragraph_spans p <> []) as Hp by (apply Hl; left).
  destruct (paragraph_spans p) as [|s sp] eqn:Hs; [done|].
  rewrite for_each_cons, (index_paragraph_Ok rs re p s) by (by rewrite Hs).
  rewrite bind_Ok. apply IH. intros q Hq. apply Hl. by right.
Qed.

Lemma index_loop_keeps (l : list DocumentParagraph) (rs re rs' re' : gmap Z string) :
  for_each index_paragraph l (rs, re) = Ok (rs', re') ->
  (forall k, (forall p, p ∈ l -> para_start p <> Some k) -> rs' !! k = rs !! k)
  /\ (forall k, (forall p, p ∈ l -> para_end p <> Some k) -> re' !! k = re !! k).
Proof.
  revert rs re. induction l as [|p l IH]; intros rs re.
  - by intros [= <- <-].
  - rewrite for_each_cons. destruct (head (paragraph_spans p)) as [s|] eqn:Hs.
    + rewrite (index_paragraph_Ok rs re p s Hs), bind_Ok. intros Hl.
      destruct (IH _ _ Hl) as [IHs IHe]. split; intros k Hk.
      * rewrite IHs by (intros q Hq; apply Hk; by right).
        apply lookup_insert_ne. intros <-. apply (Hk p); [left|].
        unfold para_start. by rewrite Hs.
      * rewrite IHe by (intros q Hq; apply Hk; by right).
        apply lookup_insert_ne. intros <-. apply (Hk p); [left|].
        unfold para_end. by rewrite Hs.
    + unfold index_paragraph. destruct (paragraph_spans p); [|done]. done.
Qed.

Lemma index_roles_for_each (results : AnalyzeResult) (ps : list DocumentParagraph) :
  paragraphs results = Some ps ->
  index_roles results = for_each index_paragraph ps (∅, ∅).
Proof. unfold index_roles. intros ->. by destruct ps. Qed.

Lemma index_loop_last (earlier later : list DocumentParagraph)
    (q : DocumentParagraph) (s : DocumentSpan) :
  head (paragraph_spans q) = Some s ->
  (forall p, p ∈ earlier ++ later -> paragraph_spans p <> []) ->
  exists roles_start roles_end,
    for_each index_paragraph (earlier ++ q :: later) (∅, ∅)
    = Ok (roles_start, roles_end)
    /\ ((forall p, p ∈ later -> para_start p <> Some (span_offset s)) ->
        roles_start !! span_offset s = Some (role_or_default q))
    /\ ((forall p, p ∈ later -> para_end p <> Some (span_offset s + span_length s)) ->
        roles_end !! (span_offset s + span_length s) = Some (role_or_default q)).
Proof.
  intros Hq Hsp. rewrite for_each_app.
  destruct (index_loop_total earlier (∅, ∅)) as [[rs1 re1] H1].
  { intros p Hp. apply Hsp. apply elem_of_app. by left. }
  rewrite H1, bind_Ok, for_each_cons, (index_paragraph_Ok rs1 re1 q s Hq), bind_Ok.
  destruct (index_loop_total later
              (<[span_offset s := role_or_default q]> rs1,
               <[span_offset s + span_length s := role_or_default q]> re1))
    as [[rs2 re2] H2].
  { intros p Hp. apply Hsp. apply elem_of_app. by right. }
  rewrite H2. exists rs2, re2. split; [done|].
  destruct (index_loop_keeps _ _ _ _ _ H2) as [Ks Ke]. split; intros Hk.
  - rewrite Ks by done. apply lookup_insert_eq.
  - rewrite Ke by done. apply lookup_insert_eq.
Qed.

(** C8. When the role dicts are built, the entry left at an offset is the
    role of the last paragraph of the sequence whose first span starts
    (resp. ends) there: a later paragraph overwrites what an earlier one
    with the same boundary stored. *)
Theorem roles_last_write_wins (results : AnalyzeResult)
    (earlier later : list DocumentParagraph) (q : DocumentParagraph) (s : DocumentSpan) :
  paragraphs results = Some (earlier ++ q :: later) ->
  head (paragraph_spans q) = Some s ->
  (forall p, p ∈ earlier ++ later -> paragraph_spans p <> []) ->
  exists roles_start roles_end,
    index_roles results = Ok (roles_start, roles_end)
    /\ ((forall p, p ∈ later -> para_start p <> Some (span_offset s)) ->
        roles_start !! span_offset s = Some (role_or_default q))
    /\ ((forall p, p ∈ later -> para_end p <> Some (span_offset s + span_length s)) ->
        roles_end !! (span_offset s + span_length s) = Some (role_or_default q)).
Proof.
  intros Hps Hq Hsp. rewrite (index_roles_for_each _ _ Hps).
  by apply index_loop_last.
Qed.

Lemma roles_last_write_wins_witness :
  exists roles_start roles_end,
    index_roles Sample.twice_indexed = Ok (roles_start, roles_end)
    /\ roles_start !! 0 = Some "sectionHeading"
    /\ roles_end !! 5 = Some "sectionHeading".
Proof.
  destruct (roles_last_write_wins Sample.twice_indexed
              [Sample.para (Some "title") 0 5] []
              (Sample.para (Some "sectionHeading") 0 5) (Sample.span 0 5)
              eq_refl eq_refl) as (rs & re & H & Hs & He).
  - intros p Hp. apply list_elem_of_singleton in Hp as ->. discriminate.
  - exists rs, re. split; [exact H|]. split.
    + apply Hs. intros p Hp. inversion Hp.
    + apply He. intros p Hp. inversion Hp.
Defined.

(** ** One step of the scan *)

Section ScanFacts.
Variable content_ : string.
Variables rs re : gmap Z string.
Variable page_offset : Z.
Variable tabs : list DocumentTable.

(** An unmarked character: opening tag, closing tag, the character. *)
Lemma scan_step_plain (txt : string) (added : gset Z) (idx : Z) :
  scan_step content_ rs re page_offset tabs (txt, added) (idx, -1)
  = (c ← str_index content_ (page_offset + idx);
     Ok (txt +:+ open_tag (html_role_at rs (page_offset + idx))
             +:+ close_tag (html_role_at re (page_offset + idx))
             +:+ String c EmptyString, added)).
Proof.
  unfold scan_step, html_role_at. change (-1 =? -1) with true. cbv iota.
  destruct (str_index content_ (page_offset + idx)) as [c|e]; [|done].
  rewrite !bind_Ok.
  destruct (rs !! (page_offset + idx)) as [r1|];
    destruct (re !! (page_offset + idx)) as [r2|];
    cbn [mbind option_bind];
    repeat match goal with
      | |- context [dict_get ?d ?r] => destruct (dict_get d r)
      end;
    cbn [open_tag close_tag]; by rewrite ?append_nil_r, ?append_assoc.
Qed.

(** The first character marked with a table: the table is rendered. *)
Lemma scan_step_table_new (txt : string) (added : gset Z) (idx table_id : Z) :
  table_id <> -1 -> table_id ∉ added ->
  scan_step content_ rs re page_offset tabs (txt, added) (idx, table_id)
  = (table ← list_index tabs table_id;
     Ok (txt +:+ _table_to_html table, {[table_id]} ∪ added)).
Proof.
  intros Hne Hnew. unfold scan_step.
  destruct (Z.eqb_spec table_id (-1)) as [?|_]; [done|].
  by rewrite bool_decide_eq_true_2.
Qed.

(** A character marked with a table already rendered: nothing. *)
Lemma scan_step_table_seen (txt : string) (added : gset Z) (idx table_id : Z) :
  table_id <> -1 -> table_id ∈ added ->
  scan_step content_ rs re page_offset tabs (txt, added) (idx, table_id)
  = Ok (txt, added).
Proof.
  intros Hne Hseen. unfold scan_step.
  destruct (Z.eqb_spec table_id (-1)) as [?|_]; [done|].
  rewrite bool_decide_eq_false_2; [done|]. by intros H.
Qed.

Lemma scan_app (l1 l2 : list (Z * Z)) (st : string * gset Z) :
  scan content_ rs re page_offset tabs (l1 ++ l2) st
  = (st' ← scan content_ rs re page_offset tabs l1 st;
     scan content_ rs re page_offset tabs l2 st').
Proof. apply for_each_app. Qed.

Lemma scan_cons (e : Z * Z) (l : list (Z * Z)) (st : string * gset Z) :
  scan content_ rs re page_offset tabs (e :: l) st
  = (st' ← scan_step content_ rs re page_offset tabs st e;
     scan content_ rs re page_offset tabs l st').
Proof. reflexivity. Qed.

(** A step only adds to the set of rendered tables, and only the id of
    the entry it reads. *)
Lemma scan_step_added (txt txt' : string) (added added' : gset Z) (e : Z * Z) :
  scan_step content_ rs re page_offset tabs (txt, added) e = Ok (txt', added') ->
  (forall x, x ∈ added -> x ∈ added')
  /\ (forall x, x ∈ added' -> x ∈ added \/ x = e.2).
Proof.
  destruct e as [idx tid]. destruct (decide (tid = -1)) as [->|Hne].
  - rewrite scan_step_plain. destruct (str_index _ _); [|done].
    rewrite bind_Ok. intros [= _ <-]. split; [done|]. by left.
  - destruct (decide (tid ∈ added)) as [Hin|Hout].
    + rewrite scan_step_table_seen by done. intros [= _ <-]. split; [done|]. by left.
    + rewrite scan_step_table_new by done. destruct (list_index _ _); [|done].
      rewrite bind_Ok. intros [= _ <-]. split.
      * intros x Hx. apply elem_of_union. by right.
      * intros x [->%elem_of_singleton|Hx]%elem_of_union; [by right|by left].
Qed.

Lemma scan_added (l : list (Z * Z)) (txt txt' : string) (added added' : gset Z) :
  scan content_ rs re page_offset tabs l (txt, added) = Ok (txt', added') ->
  (forall x, x ∈ added -> x ∈ added')
  /\ (forall x, x ∈ added' -> x ∈ added \/ x ∈ l.*2).
Proof.
  revert txt added. induction l as [|e l IH]; intros txt added.
  - intros [= _ <-]. split; [done|]. by left.
  - rewrite scan_cons.
    destruct (scan_step content_ rs re page_offset tabs (txt, added) e)
      as [[t1 a1]|err] eqn:He; [|done].
    rewrite bind_Ok. intros Hl. destruct (scan_step_added _ _ _ _ _ He) as [S1 B1].
    destruct (IH _ _ Hl) as [S2 B2]. split; [by intros x Hx; apply S2, S1|].
    intros x Hx. rewrite fmap_cons. destruct (B2 x Hx) as [H|H].
    + destruct (B1 x H) as [?| ->]; [by left|right; by left].
    + right. by right.
Qed.

(** Once a table is rendered, the characters marked with it are skipped. *)
Lemma scan_skip (table_id : Z) (l : list (Z * Z)) (txt : string) (added : gset Z) :
  table_id <> -1 -> table_id ∈ added ->
  scan content_ rs re page_offset tabs l (txt, added)
  = scan content_ rs re page_offset tabs
      (filter (fun e => e.2 <> table_id) l) (txt, added).
Proof.
  intros Hne. revert txt added. induction l as [|e l IH]; intros txt added Hin; [done|].
  destruct (decide (e.2 = table_id)) as [He|He].
  - rewrite filter_cons_False by (by intros H; apply H).
    rewrite scan_cons. destruct e as [idx tid]; simpl in He; subst tid.
    rewrite scan_step_table_seen by done. rewrite bind_Ok. by apply IH.
  - rewrite filter_cons_True by done. rewrite !scan_cons.
    destruct (scan_step content_ rs re page_offset tabs (txt, added) e)
      as [[t1 a1]|err] eqn:Hs; [|done].
    rewrite !bind_Ok. apply IH.
    destruct (scan_step_added _ _ _ _ _ Hs) as [S1 _]. by apply S1.
Qed.
End ScanFacts.

(** ** The character array of a page *)

Lemma mark_span_length (page_offset page_length table_id : Z)
    (table_chars : list Z) (span : DocumentSpan) :
  length (mark_span page_offset page_length table_id table_chars span)
  = length table_chars.
Proof.
  unfold mark_span. generalize (range (span_length span)). intros l.
  revert table_chars. induction l as [|i l IH]; intros tc; simpl; [done|].
  rewrite IH. destruct (_ && _); [apply length_insert|done].
Qed.

(** A span none of whose characters lies on the page leaves the array as
    it is: the indices outside [0, page_length) are dropped. *)
Lemma mark_span_outside (page_offset page_length table_id : Z)
    (table_chars : list Z) (span : DocumentSpan) :
  (forall i, 0 <= i < span_length span ->
             ~ (0 <= span_offset span - page_offset + i < page_length)) ->
  mark_span page_offset page_length table_id table_chars span = table_chars.
Proof.
  intros Hout. unfold mark_span, range.
  assert (Forall (fun i => 0 <= i < span_length span) (seqZ 0 (span_length span))) as Hl.
  { apply Forall_seqZ. lia. }
  revert Hl. generalize (seqZ 0 (span_length span)). intros l Hl.
  induction Hl as [|i l Hi Hl IH]; [done|]. cbn [fold_left].
  specialize (Hout i Hi).
  destruct (Z.leb_spec 0 (span_offset span - page_offset + i));
    destruct (Z.ltb_spec (span_offset span - page_offset + i) page_length);
    cbn [andb]; first [lia | exact IH].
Qed.

Lemma mark_table_length (page_offset page_length : Z)
    (table_chars : list Z) (entry : Z * DocumentTable) :
  length (mark_table page_offset page_length table_chars entry) = length table_chars.
Proof.
  destruct entry as [table_id table]. unfold mark_table.
  generalize (table_spans table). intros l.
  revert table_chars. induction l as [|s l IH]; intros tc; simpl; [done|].
  by rewrite IH, mark_span_length.
Qed.

Lemma mark_tables_length (page_offset page_length : Z) (tabs : list DocumentTable) :
  length (mark_tables page_offset page_length tabs) = Z.to_nat page_length.
Proof.
  unfold mark_tables. generalize (enumerate tabs). intros l.
  rewrite <- (length_replicate (Z.to_nat page_length) (-1)) at 2.
  generalize (replicate (Z.to_nat page_length) (-1)). intros tc.
  revert tc. induction l as [|e l IH]; intros tc; simpl; [done|].
  by rewrite IH, mark_table_length.
Qed.

Lemma mark_tables_nil (page_offset page_length : Z) :
  mark_tables page_offset page_length [] = replicate (Z.to_nat page_length) (-1).
Proof. reflexivity. Qed.

Lemma mark_span_ok (bound page_offset page_length table_id : Z)
    (table_chars : list Z) (span : DocumentSpan) :
  0 <= table_id < bound -> Forall (mark_ok bound) table_chars ->
  Forall (mark_ok bound) (mark_span page_offset page_length table_id table_chars span).
Proof.
  intros Hid. unfold mark_span. generalize (range (span_length span)). intros l.
  revert table_chars. induction l as [|i l IH]; intros tc Htc; simpl; [done|].
  apply IH. destruct (_ && _); [|done].
  apply Forall_insert; [done|]. by right.
Qed.

Lemma mark_table_ok (bound page_offset page_length : Z)
    (table_chars : list Z) (entry : Z * DocumentTable) :
  0 <= entry.1 < bound -> Forall (mark_ok bound) table_chars ->
  Forall (mark_ok bound) (mark_table page_offset page_length table_chars entry).
Proof.
  destruct entry as [table_id table]. simpl. intros Hid. unfold mark_table.
  generalize (table_spans table). intros l.
  revert table_chars. induction l as [|s l IH]; intros tc Htc; simpl; [done|].
  apply IH. by apply mark_span_ok.
Qed.

Lemma enumerate_from_bounds {A : Type} (n : Z) (l : list A) :
  Forall (fun e => n <= e.1 < n + Z.of_nat (length l)) (enumerate_from n l).
Proof.
  revert n. induction l as [|x l IH]; intros n; simpl; [constructor|].
  constructor; [simpl; lia|].
  eapply Forall_impl; [apply IH|]. intros e He. simpl in He. lia.
Qed.

Lemma mark_tables_ok (page_offset page_length : Z) (tabs : list DocumentTable) :
  Forall (mark_ok (Z.of_nat (length tabs))) (mark_tables page_offset page_length tabs).
Proof.
  unfold mark_tables, enumerate.
  pose proof (enumerate_from_bounds 0 tabs) as Hb.
  assert (Forall (mark_ok (Z.of_nat (length tabs)))
            (replicate (Z.to_nat page_length) (-1))) as Htc.
  { apply Forall_replicate. by left. }
  revert Hb Htc. generalize (replicate (Z.to_nat page_length) (-1)).
  generalize (enumerate_from 0 tabs). intros l.
  induction l as [|e l IH]; intros tc Hb Htc; simpl; [done|].
  inversion Hb as [|? ? He Hl]; subst. apply IH; [done|].
  apply mark_table_ok; [lia|done].
Qed.

(** ** The text of a page as a scan *)

Lemma page_text_of_scan (results : AnalyzeResult) (rs re : gmap Z string)
    (page_num : Z) (page : DocumentPage) (tabs : list DocumentTable) (sp : DocumentSpan) :
  tables_on_page results page_num = Ok tabs ->
  page_span page = Some sp ->
  page_text_of results rs re page_num page
  = (st ← scan (content results) rs re (span_offset sp) tabs
            (enumerate (mark_tables (span_offset sp) (span_length sp) tabs))
            (EmptyString, ∅);
     Ok (st.1 +:+ " ")).
Proof.
  intros Ht Hs. unfold page_text_of. rewrite Ht, bind_Ok.
  by rewrite (list_index_0_head _ _ Hs), !bind_Ok.
Qed.

(** The text already accumulated does not influence what the scan adds. *)
Lemma scan_frame (content_ : string) (rs re : gmap Z string) (page_offset : Z)
    (tabs : list DocumentTable) (l : list (Z * Z)) (txt : string) (added : gset Z) :
  scan content_ rs re page_offset tabs l (txt, added)
  = (st ← scan content_ rs re page_offset tabs l (EmptyString, added);
     Ok (txt +:+ st.1, st.2)).
Proof.
  revert txt added. induction l as [|[idx tid] l IH]; intros txt added.
  - simpl. by rewrite append_nil_r.
  - rewrite !scan_cons. destruct (decide (tid = -1)) as [->|Hne].
    + rewrite !scan_step_plain. destruct (str_index _ _) as [c|e]; [|done].
      rewrite !bind_Ok, IH, append_nil_l.
      rewrite (IH (open_tag _ +:+ _)).
      destruct (scan _ _ _ _ _ l (EmptyString, added)) as [[t a]|e]; [|done].
      rewrite !bind_Ok. simpl. by rewrite !append_assoc.
    + destruct (decide (tid ∈ added)) as [Hin|Hout].
      * rewrite !scan_step_table_seen by done. rewrite !bind_Ok. apply IH.
      * rewrite !scan_step_table_new by done.
        destruct (list_index tabs tid) as [t|e]; [|done].
        rewrite !bind_Ok, IH, append_nil_l. rewrite (IH (_table_to_html t)).
        destruct (scan _ _ _ _ _ l (EmptyString, _)) as [[t' a]|e]; [|done].
        rewrite !bind_Ok. simpl. by rewrite !append_assoc.
Qed.

(** ** A position where one role ends and another begins *)

Lemma html_role_at_Some (roles : gmap Z string) (position : Z) (r : string) :
  roles !! position = Some r ->
  html_role_at roles position = dict_get form_recognizer_role_to_html r.
Proof. unfold html_role_at. by intros ->. Qed.

Lemma html_role_at_None (roles : gmap Z string) (position : Z) :
  roles !! position = None -> html_role_at roles position = None.
Proof. unfold html_role_at. by intros ->. Qed.

(** C10. At a scanned (unmarked) position whose offset is both a recorded
    role start and a recorded role end, the page text continues with the
    opening tag of the starting role, then the closing tag of the ending
    role, then the character at that offset (a role without a tag adds
    nothing). *)
Theorem boundary_emission_order (results : AnalyzeResult) (rs re : gmap Z string)
    (page_num : Z) (page : DocumentPage) (tabs : list DocumentTable) (sp : DocumentSpan)
    (pre post : list Z) (r1 r2 : string) (c : ascii) (txt : string) (added : gset Z) :
  tables_on_page results page_num = Ok tabs ->
  page_span page = Some sp ->
  mark_tables (span_offset sp) (span_length sp) tabs = pre ++ -1 :: post ->
  rs !! (span_offset sp + Z.of_nat (length pre)) = Some r1 ->
  re !! (span_offset sp + Z.of_nat (length pre)) = Some r2 ->
  str_index (content results) (span_offset sp + Z.of_nat (length pre)) = Ok c ->
  scan (content results) rs re (span_offset sp) tabs (enumerate pre) (EmptyString, ∅)
  = Ok (txt, added) ->
  page_text_of results rs re page_num page
  = (st ← scan (content results) rs re (span_offset sp) tabs
            (enumerate_from (Z.of_nat (length pre) + 1) post) (EmptyString, added);
     Ok (txt +:+ open_tag (dict_get form_recognizer_role_to_html r1)
             +:+ close_tag (dict_get form_recognizer_role_to_html r2)
             +:+ String c (st.1 +:+ " "))).
Proof.
  intros Ht Hs Hm H1 H2 Hc Hpre.
  rewrite (page_text_of_scan _ _ _ _ _ _ _ Ht Hs), Hm.
  unfold enumerate. rewrite enumerate_from_app. simpl enumerate_from.
  rewrite scan_app. fold (enumerate pre). rewrite Hpre, bind_Ok.
  rewrite scan_cons, scan_step_plain, Z.add_0_l, Hc, !bind_Ok.
  rewrite (html_role_at_Some _ _ _ H1), (html_role_at_Some _ _ _ H2).
  rewrite (scan_frame _ _ _ _ _ _ (txt +:+ _)).
  destruct (scan _ _ _ _ _ _ (EmptyString, added)) as [[t a]|e]; [|done].
  rewrite !bind_Ok. simpl. f_equal. by rewrite !append_assoc.
Qed.

Lemma boundary_emission_order_witness :
  page_text_of Sample.adjacent_roles Sample.adjacent_starts Sample.adjacent_ends
    0 (Sample.page 0 6)
  = Ok "<h1>abc<h2></h1>def ".
Proof.
  etrans.
  - apply (boundary_emission_order Sample.adjacent_roles
             Sample.adjacent_starts Sample.adjacent_ends 0 (Sample.page 0 6)
             [] (Sample.span 0 6) [-1; -1; -1] [-1; -1]
             "sectionHeading" "title" "d"%char "<h1>abc" ∅);
      vm_compute; reflexivity.
  - vm_compute; reflexivity.
Defined.

(** ** Which closing tags a page can show *)

Lemma scan_step_roles_end_ext (content_ : string) (rs re re' : gmap Z string)
    (page_offset : Z) (tabs : list DocumentTable) (st : string * gset Z) (e : Z * Z) :
  re !! (page_offset + e.1) = re' !! (page_offset + e.1) ->
  scan_step content_ rs re page_offset tabs st e
  = scan_step content_ rs re' page_offset tabs st e.
Proof.
  destruct st as [txt added], e as [idx tid]. intros H. simpl in H.
  destruct (decide (tid = -1)) as [->|Hne].
  - rewrite !scan_step_plain. unfold html_role_at. by rewrite H.
  - destruct (decide (tid ∈ added)).
    + by rewrite !scan_step_table_seen.
    + by rewrite !scan_step_table_new.
Qed.

Lemma scan_roles_end_ext (content_ : string) (rs re re' : gmap Z string)
    (page_offset : Z) (tabs : list DocumentTable) (l : list (Z * Z))
    (st : string * gset Z) :
  Forall (fun e => re !! (page_offset + e.1) = re' !! (page_offset + e.1)) l ->
  scan content_ rs re page_offset tabs l st = scan content_ rs re' page_offset tabs l st.
Proof.
  intros Hl. revert st. induction Hl as [|e l He Hl IH]; intros st; [done|].
  rewrite !scan_cons, (scan_step_roles_end_ext _ _ _ _ _ _ _ _ He).
  destruct (scan_step _ _ _ _ _ _ _) as [st'|err]; [|done].
  rewrite !bind_Ok. apply IH.
Qed.

(** What the scan adds at an unmarked character. *)
Lemma page_text_at_unmarked (results : AnalyzeResult) (rs re : gmap Z string)
    (page_num : Z) (page : DocumentPage) (tabs : list DocumentTable) (sp : DocumentSpan)
    (pre post : list Z) (c : ascii) (txt : string) (added : gset Z) :
  tables_on_page results page_num = Ok tabs ->
  page_span page = Some sp ->
  mark_tables (span_offset sp) (span_length sp) tabs = pre ++ -1 :: post ->
  str_index (content results) (span_offset sp + Z.of_nat (length pre)) = Ok c ->
  scan (content results) rs re (span_offset sp) tabs (enumerate pre) (EmptyString, ∅)
  = Ok (txt, added) ->
  page_text_of results rs re page_num page
  = (st ← scan (content results) rs re (span_offset sp) tabs
            (enumerate_from (Z.of_nat (length pre) + 1) post) (EmptyString, added);
     Ok (txt +:+ open_tag (html_role_at rs (span_offset sp + Z.of_nat (length pre)))
             +:+ close_tag (html_role_at re (span_offset sp + Z.of_nat (length pre)))
             +:+ String c (st.1 +:+ " "))).
Proof.
  intros Ht Hs Hm Hc Hpre.
  rewrite (page_text_of_scan _ _ _ _ _ _ _ Ht Hs), Hm.
  unfold enumerate. rewrite enumerate_from_app. simpl enumerate_from.
  rewrite scan_app. fold (enumerate pre). rewrite Hpre, bind_Ok.
  rewrite scan_cons, scan_step_plain, Z.add_0_l, Hc, !bind_Ok.
  rewrite (scan_frame _ _ _ _ _ _ (txt +:+ _)).
  destruct (scan _ _ _ _ _ _ (EmptyString, added)) as [[t a]|e]; [|done].
  rewrite !bind_Ok. simpl. f_equal. by rewrite !append_assoc.
Qed.

(** C9, as the code has it. The text of a page depends on the closing-role
    dict only at the offsets [page_offset <= k < page_offset + page_length]
    of that page: a closing tag recorded at [page_offset + page_length], the
    end of a paragraph that ends exactly with the page, is not emitted in
    that page's text. On any page whose scan reaches an offset with a
    recorded role end as an unmarked character (the next page, when its span
    starts there), the closing tag of that role is emitted there, after the
    opening tag of a role that starts at the offset and immediately before
    the character. *)
Theorem closing_tags_within_page (results : AnalyzeResult) (rs re : gmap Z string) :
  (forall re' page_num page sp,
     page_span page = Some sp ->
     (forall k, span_offset sp <= k < span_offset sp + span_length sp ->
                re !! k = re' !! k) ->
     page_text_of results rs re page_num page
     = page_text_of results rs re' page_num page)
  /\ (forall page_num page tabs sp pre post r c txt added,
        tables_on_page results page_num = Ok tabs ->
        page_span page = Some sp ->
        mark_tables (span_offset sp) (span_length sp) tabs = pre ++ -1 :: post ->
        re !! (span_offset sp + Z.of_nat (length pre)) = Some r ->
        str_index (content results) (span_offset sp + Z.of_nat (length pre)) = Ok c ->
        scan (content results) rs re (span_offset sp) tabs (enumerate pre)
             (EmptyString, ∅) = Ok (txt, added) ->
        page_text_of results rs re page_num page
        = (st ← scan (content results) rs re (span_offset sp) tabs
                  (enumerate_from (Z.of_nat (length pre) + 1) post)
                  (EmptyString, added);
           Ok (txt +:+ open_tag (html_role_at rs
                                   (span_offset sp + Z.of_nat (length pre)))
                   +:+ close_tag (dict_get form_recognizer_role_to_html r)
                   +:+ String c (st.1 +:+ " ")))).
Proof.
  split.
  - intros re' page_num page sp Hs Hk.
    destruct (tables_on_page results page_num) as [tabs|e] eqn:Ht.
    + rewrite !(page_text_of_scan _ _ _ _ _ _ _ Ht Hs).
      rewrite (scan_roles_end_ext _ _ re re'); [done|].
      unfold enumerate.
      pose proof (enumerate_from_bounds 0
                    (mark_tables (span_offset sp) (span_length sp) tabs)) as Hb.
      rewrite mark_tables_length in Hb.
      eapply Forall_impl; [exact Hb|]. intros e' He'. simpl in He'. apply Hk. lia.
    + unfold page_text_of. by rewrite Ht.
  - intros page_num page tabs sp pre post r c txt added Ht Hs Hm Hr Hc Hpre.
    rewrite (page_text_at_unmarked _ _ _ _ _ _ _ _ _ _ _ _ Ht Hs Hm Hc Hpre).
    by rewrite (html_role_at_Some _ _ _ Hr).
Qed.

Lemma closing_tags_within_page_witness :
  page_text_of Sample.abutting_pages (<[0 := "title"]> ∅) (<[3 := "title"]> ∅)
    0 (Sample.page 0 3)
  = page_text_of Sample.abutting_pages (<[0 := "title"]> ∅) ∅ 0 (Sample.page 0 3)
  /\ page_text_of Sample.abutting_pages (<[0 := "title"]> ∅) (<[3 := "title"]> ∅)
       1 (Sample.page 3 3)
     = Ok "</h1>def ".
Proof.
  split.
  - apply (proj1 (closing_tags_within_page Sample.abutting_pages
                    (<[0 := "title"]> ∅) (<[3 := "title"]> ∅))
             ∅ 0 (Sample.page 0 3) (Sample.span 0 3)).
    + reflexivity.
    + simpl. intros k Hk. apply lookup_insert_ne. lia.
  - etrans.
    + apply (proj2 (closing_tags_within_page Sample.abutting_pages
                      (<[0 := "title"]> ∅) (<[3 := "title"]> ∅))
               1 (Sample.page 3 3) [] (Sample.span 3 3) [] [-1; -1]
               "title" "d"%char EmptyString ∅);
        vm_compute; reflexivity.
    + vm_compute; reflexivity.
Defined.

(** C9 as stated fails: the title ends at offset 3, where the first page
    ends, and its closing tag opens the text of the second page, whose span
    starts at that offset. *)
Lemma closing_tag_on_next_page :
  para_end (Sample.para (Some "title") 0 3) = Some (0 + 3)
  /\ page_span (Sample.page 0 3) = Some (Sample.span 0 3)
  /\ reconstruct Sample.abutting_pages = Ok Sample.abutting_pages_map
  /\ occurrences "</h1>" "</h1>def " = 1%nat.
Proof. vm_compute. repeat split. Qed.

(** ** The tables of a page *)

Lemma select_tables_cons (page_num : Z) (t : DocumentTable) (ts : list DocumentTable) :
  select_tables page_num (t :: ts)
  = (region0 ← list_index (bounding_regions t) 0;
     rest ← select_tables page_num ts;
     Ok (if page_number region0 =? page_num + 1 then t :: rest else rest)).
Proof. reflexivity. Qed.

Lemma select_tables_elem (page_num : Z) (ts tabs : list DocumentTable) :
  select_tables page_num ts = Ok tabs ->
  forall t, t ∈ tabs <->
            t ∈ ts /\ exists br, first_region t = Some br
                                 /\ page_number br = page_num + 1.
Proof.
  revert tabs. induction ts as [|t0 ts IH]; intros tabs.
  - intros [= <-] t. split; [by intros ?%elem_of_nil|by intros [?%elem_of_nil _]].
  - rewrite select_tables_cons. unfold first_region.
    destruct (bounding_regions t0) as [|br0 brs] eqn:Hbr; [done|].
    rewrite list_index_0_cons, bind_Ok.
    destruct (select_tables page_num ts) as [rest|e]; [|done].
    rewrite bind_Ok. intros [= <-] t. specialize (IH rest eq_refl t).
    destruct (Z.eqb_spec (page_number br0) (page_num + 1)) as [Heq|Hne].
    + rewrite !elem_of_cons, IH. split.
      * intros [->|[Hin Hbr']]; [|by split; [right|]].
        split; [by left|]. exists br0. by rewrite Hbr.
      * intros [[->|Hin] Hbr']; [by left|right; by split].
    + rewrite IH, elem_of_cons. split.
      * intros [Hin Hbr']. split; [by right|done].
      * intros [[->|Hin] (br & Hbr' & Hp)]; [|split; [done|by exists br]].
        rewrite Hbr in Hbr'. simpl in Hbr'. by injection Hbr' as <-.
Qed.

Lemma select_tables_total (page_num : Z) (ts : list DocumentTable) :
  (forall t, t ∈ ts -> bounding_regions t <> []) ->
  exists tabs, select_tables page_num ts = Ok tabs.
Proof.
  induction ts as [|t0 ts IH]; intros Hts; [by eexists|].
  rewrite select_tables_cons.
  assert (bounding_regions t0 <> []) as Hbr by (apply Hts; left).
  destruct (bounding_regions t0) as [|br0 brs]; [done|].
  rewrite list_index_0_cons, bind_Ok.
  destruct IH as [rest ->]; [intros t Ht; apply Hts; by right|].
  rewrite bind_Ok. by eexists.
Qed.

(** A table first seen on another page does not count for this one. *)
Lemma select_tables_drop (page_num : Z) (before after : list DocumentTable)
    (t : DocumentTable) (br : BoundingRegion) :
  first_region t = Some br -> page_number br <> page_num + 1 ->
  select_tables page_num (before ++ t :: after) = select_tables page_num (before ++ after).
Proof.
  intros Hbr Hp. induction before as [|t0 l IH].
  - rewrite !app_nil_l, select_tables_cons.
    rewrite (list_index_0_head _ _ Hbr), bind_Ok.
    destruct (select_tables page_num after) as [rest|e]; [|done].
    rewrite bind_Ok. by destruct (Z.eqb_spec (page_number br) (page_num + 1)).
  - rewrite <- !app_comm_cons, !select_tables_cons, IH. done.
Qed.

Lemma tables_on_page_select (results : AnalyzeResult) (page_num : Z)
    (ts : list DocumentTable) :
  tables results = Some ts -> tables_on_page results page_num = select_tables page_num ts.
Proof. unfold tables_on_page. intros ->. by destruct ts. Qed.

Lemma tables_on_page_None (results : AnalyzeResult) (page_num : Z) :
  tables results = None -> tables_on_page results page_num = Ok [].
Proof. unfold tables_on_page. by intros ->. Qed.

Lemma page_text_of_ext (r r' : AnalyzeResult) (rs re : gmap Z string)
    (page_num : Z) (page : DocumentPage) :
  content r = content r' ->
  tables_on_page r page_num = tables_on_page r' page_num ->
  page_text_of r rs re page_num page = page_text_of r' rs re page_num page.
Proof. intros Hc Ht. unfold page_text_of. by rewrite Hc, Ht. Qed.

(** C3. The tables selected for a page are exactly the tables whose first
    bounding region carries the page's 1-based number; so a table whose
    first bounding region names another page (page 1, for page 2) takes no
    part in the text of this page, wherever its spans fall: the page text is
    what it would be without that table. Where a table is selected, a span
    that lies outside the page's range marks nothing. *)
Theorem tables_selected_by_first_region (results : AnalyzeResult) (page_num : Z) :
  (forall tabs, tables_on_page results page_num = Ok tabs ->
     forall t, t ∈ tabs <->
               exists ts br, tables results = Some ts /\ t ∈ ts
                             /\ first_region t = Some br
                             /\ page_number br = page_num + 1)
  /\ ((forall ts t, tables results = Some ts -> t ∈ ts -> bounding_regions t <> []) ->
      exists tabs, tables_on_page results page_num = Ok tabs)
  /\ (forall before after t br rs re page,
        tables results = Some (before ++ t :: after) ->
        first_region t = Some br -> page_number br <> page_num + 1 ->
        tables_on_page results page_num
        = tables_on_page (with_tables results (Some (before ++ after))) page_num
        /\ page_text_of results rs re page_num page
           = page_text_of (with_tables results (Some (before ++ after)))
               rs re page_num page)
  /\ (forall page_offset page_length table_id table_chars span,
        (forall i, 0 <= i < span_length span ->
                   ~ (0 <= span_offset span - page_offset + i < page_length)) ->
        mark_span page_offset page_length table_id table_chars span = table_chars).
Proof.
  split; [|split; [|split; [|apply mark_span_outside]]].
  - intros tabs Ht t. destruct (tables results) as [ts|] eqn:Hts.
    + rewrite (tables_on_page_select _ _ _ Hts) in Ht.
      rewrite (select_tables_elem _ _ _ Ht). split.
      * intros (Hin & br & Hbr & Hp). by exists ts, br.
      * intros (ts' & br & [= <-] & Hin & Hbr & Hp). split; [done|by exists br].
    + rewrite (tables_on_page_None _ _ Hts) in Ht. injection Ht as <-. split.
      * by intros ?%elem_of_nil.
      * by intros (ts & br & ? & _).
  - intros Hall. destruct (tables results) as [ts|] eqn:Hts.
    + rewrite (tables_on_page_select _ _ _ Hts). apply select_tables_total.
      intros t Ht. by apply (Hall ts).
    + rewrite (tables_on_page_None _ _ Hts). by eexists.
  - intros before after t br rs re page Hts Hbr Hp.
    assert (tables_on_page results page_num
            = tables_on_page (with_tables results (Some (before ++ after))) page_num)
      as Heq.
    { rewrite (tables_on_page_select _ _ _ Hts).
      rewrite (tables_on_page_select (with_tables _ _) _ (before ++ after)) by done.
      by apply select_tables_drop with br. }
    split; [done|]. by apply page_text_of_ext.
Qed.

Lemma tables_selected_by_first_region_witness :
  tables_on_page Sample.stray_span 1 = Ok []
  /\ page_text_of Sample.stray_span ∅ ∅ 1 (Sample.page 3 2) = Ok "cd ".
Proof.
  destruct (proj1 (proj2 (proj2 (tables_selected_by_first_region Sample.stray_span 1)))
              [] [] Sample.stray_table {| page_number := 1 |} ∅ ∅ (Sample.page 3 2)
              eq_refl eq_refl) as [Ht Hp].
  - simpl. lia.
  - split.
    + rewrite Ht. vm_compute; reflexivity.
    + rewrite Hp. vm_compute; reflexivity.
Defined.

(** ** A table is rendered at its first marked character *)

Lemma list_index_nat {A : Type} (l : list A) (k : nat) (x : A) :
  l !! k = Some x -> list_index l (Z.of_nat k) = Ok x.
Proof.
  intros H. pose proof (lookup_lt_Some _ _ _ H) as Hlt. unfold list_index.
  destruct (Z.ltb_spec (Z.of_nat k) 0) as [?|_]; [lia|].
  destruct (Z.leb_spec 0 (Z.of_nat k)) as [_|?]; [|lia].
  destruct (Z.ltb_spec (Z.of_nat k) (Z.of_nat (length l))) as [_|?]; [|lia].
  simpl. by rewrite Nat2Z.id, H.
Qed.

Lemma list_index_insert_ne {A : Type} (l : list A) (k : nat) (x : A) (i : Z) :
  0 <= i -> i <> Z.of_nat k -> list_index (<[k := x]> l) i = list_index l i.
Proof.
  intros Hi Hne. unfold list_index. rewrite length_insert.
  destruct (Z.ltb_spec i 0) as [?|_]; [lia|].
  rewrite list_lookup_insert_ne by lia. done.
Qed.

(** The scan of characters marked with other tables does not look at the
    table stored at index [k]. *)
Lemma scan_table_ext (content_ : string) (rs re : gmap Z string) (page_offset : Z)
    (tabs : list DocumentTable) (k : nat) (t' : DocumentTable)
    (l : list (Z * Z)) (st : string * gset Z) :
  Forall (fun e => e.2 <> Z.of_nat k /\ (e.2 = -1 \/ 0 <= e.2)) l ->
  scan content_ rs re page_offset (<[k := t']> tabs) l st
  = scan content_ rs re page_offset tabs l st.
Proof.
  intros Hl. revert st. induction Hl as [|[idx tid] l [Hk Hok] Hl IH]; intros [txt added];
    [done|].
  simpl in Hk, Hok. rewrite !scan_cons.
  assert (scan_step content_ rs re page_offset (<[k := t']> tabs) (txt, added) (idx, tid)
          = scan_step content_ rs re page_offset tabs (txt, added) (idx, tid)) as ->.
  { destruct (decide (tid = -1)) as [->|Hne].
    - by rewrite !scan_step_plain.
    - destruct (decide (tid ∈ added)).
      + by rewrite !scan_step_table_seen.
      + rewrite !scan_step_table_new by done.
        rewrite list_index_insert_ne; [done|lia|done]. }
  destruct (scan_step _ _ _ _ _ _ _) as [st'|err]; [|done].
  rewrite !bind_Ok. apply IH.
Qed.

Lemma enumerate_from_snd {A : Type} (n : Z) (l : list A) : (enumerate_from n l).*2 = l.
Proof. revert n. induction l as [|x l IH]; intros n; simpl; [done|]. by rewrite IH. Qed.

Lemma Forall_enumerate_from {A : Type} (P : A -> Prop) (n : Z) (l : list A) :
  Forall P l -> Forall (fun e => P e.2) (enumerate_from n l).
Proof.
  intros H. revert n. induction H as [|x l Hx Hl IH]; intros n; simpl; [done|].
  constructor; [done|apply IH].
Qed.

(** C2, as the code has it. A table selected for a page whose local id
    marks at least one character of the page is rendered exactly once in
    the page text, where the first character marked with its id stands:
    the text is what the scan gives for the characters before it, then the
    table's HTML, then what the scan gives for the later characters with
    every character marked with that id left out; and neither of these two
    parts looks at the table. A selected table whose local id marks no
    character of the page is not rendered on it: the page text is what the
    scan gives with any other table in its place. *)
Theorem table_rendered_at_first_mark (results : AnalyzeResult) (rs re : gmap Z string)
    (page_num : Z) (page : DocumentPage) (tabs : list DocumentTable)
    (sp : DocumentSpan) (k : nat) :
  tables_on_page results page_num = Ok tabs ->
  page_span page = Some sp ->
  (Z.of_nat k ∈ mark_tables (span_offset sp) (span_length sp) tabs ->
   exists table pre post,
     tabs !! k = Some table
     /\ mark_tables (span_offset sp) (span_length sp) tabs = pre ++ Z.of_nat k :: post
     /\ (Z.of_nat k ∉ pre)
     /\ forall txt added,
          scan (content results) rs re (span_offset sp) tabs (enumerate pre)
               (EmptyString, ∅) = Ok (txt, added) ->
          let rest := filter (fun e => e.2 <> Z.of_nat k)
                        (enumerate_from (Z.of_nat (length pre) + 1) post) in
          page_text_of results rs re page_num page
          = (st ← scan (content results) rs re (span_offset sp) tabs rest
                    (EmptyString, {[Z.of_nat k]} ∪ added);
             Ok (txt +:+ _table_to_html table +:+ st.1 +:+ " "))
          /\ forall t',
               scan (content results) rs re (span_offset sp) (<[k := t']> tabs)
                    (enumerate pre) (EmptyString, ∅) = Ok (txt, added)
               /\ scan (content results) rs re (span_offset sp) (<[k := t']> tabs) rest
                       (EmptyString, {[Z.of_nat k]} ∪ added)
                  = scan (content results) rs re (span_offset sp) tabs rest
                       (EmptyString, {[Z.of_nat k]} ∪ added))
  /\ (Z.of_nat k ∉ mark_tables (span_offset sp) (span_length sp) tabs ->
      forall t',
        page_text_of results rs re page_num page
        = (st ← scan (content results) rs re (span_offset sp) (<[k := t']> tabs)
                  (enumerate (mark_tables (span_offset sp) (span_length sp) tabs))
                  (EmptyString, ∅);
           Ok (st.1 +:+ " "))).
Proof.
  intros Ht Hs.
  pose proof (mark_tables_ok (span_offset sp) (span_length sp) tabs) as Hok.
  split.
  - intros Hin.
    assert (k < length tabs)%nat as Hk.
    { rewrite Forall_forall in Hok. destruct (Hok _ Hin) as [?|?]; lia. }
    destruct (lookup_lt_is_Some_2 tabs k Hk) as [table Htab].
    destruct (list_elem_of_split_l _ _ Hin) as (pre & post & Hm & Hpre).
    exists table, pre, post. split; [done|]. split; [done|]. split; [done|].
    intros txt added Hscan rest.
    rewrite Hm in Hok. apply Forall_app in Hok as [Hokpre Hokpost].
    apply Forall_cons in Hokpost as [_ Hokpost].
    assert (Z.of_nat k ∉ added) as Hnew.
    { intros Hadd. destruct (scan_added _ _ _ _ _ _ _ _ _ _ Hscan) as [_ Hb].
      destruct (Hb _ Hadd) as [H|H]; [by apply elem_of_empty in H|].
      unfold enumerate in H. by rewrite enumerate_from_snd in H. }
    split.
    + rewrite (page_text_of_scan _ _ _ _ _ _ _ Ht Hs), Hm.
      unfold enumerate. rewrite enumerate_from_app. simpl enumerate_from.
      rewrite scan_app. fold (enumerate pre). rewrite Hscan, bind_Ok.
      rewrite scan_cons, scan_step_table_new by first [done | lia].
      rewrite (list_index_nat _ _ _ Htab), !bind_Ok, Z.add_0_l.
      rewrite (scan_skip _ _ _ _ _ (Z.of_nat k)) by first [lia | set_solver].
      fold rest. rewrite (scan_frame _ _ _ _ _ _ (txt +:+ _)).
      destruct (scan _ _ _ _ _ rest _) as [[t a]|e]; [|done].
      rewrite !bind_Ok. simpl. by rewrite !append_assoc.
    + intros t'. split.
      * rewrite scan_table_ext; [done|]. unfold enumerate.
        apply (Forall_enumerate_from
                 (fun x => x <> Z.of_nat k /\ (x = -1 \/ 0 <= x))).
        rewrite Forall_forall in Hokpre |- *. intros x Hx. split.
        -- intros ->. done.
        -- destruct (Hokpre x Hx) as [?|?]; [by left|right; lia].
      * apply scan_table_ext. subst rest. apply Forall_forall.
        intros e [He Hin']%list_elem_of_filter. split; [done|].
        pose proof (Forall_enumerate_from (mark_ok (Z.of_nat (length tabs)))
                      (Z.of_nat (length pre) + 1) post Hokpost) as Hall.
        rewrite Forall_forall in Hall.
        destruct (Hall e Hin') as [?|?]; [by left|right; lia].
  - intros Hout t'. rewrite (page_text_of_scan _ _ _ _ _ _ _ Ht Hs).
    rewrite scan_table_ext; [done|]. unfold enumerate.
    apply (Forall_enumerate_from
             (fun x => x <> Z.of_nat k /\ (x = -1 \/ 0 <= x))).
    rewrite Forall_forall in Hok |- *. intros x Hx. split.
    + by intros ->.
    + destruct (Hok x Hx) as [?|?]; [by left|right; lia].
Qed.

Lemma table_rendered_at_first_mark_witness :
  (exists table pre post,
     [Sample.stray_table] !! 0%nat = Some table
     /\ mark_tables 0 5 [Sample.stray_table] = pre ++ Z.of_nat 0 :: post
     /\ (Z.of_nat 0 ∉ pre))
  /\ page_text_of Sample.stray_span ∅ ∅ 0 (Sample.page 0 2) = Ok "ab ".
Proof.
  split.
  - destruct (proj1 (table_rendered_at_first_mark Sample.stray_span
                       ∅ ∅ 0 (Sample.page 0 5) [Sample.stray_table]
                       (Sample.span 0 5) 0 eq_refl eq_refl))
      as (table & pre & post & H1 & H2 & H3 & _).
    + vm_compute. do 3 right. left.
    + by exists table, pre, post.
  - assert (Z.of_nat 0 ∉ mark_tables 0 2 [Sample.stray_table]) as Hout.
    { vm_compute. intros H. inversion H as [|? ? ? H']; subst.
      inversion H' as [|? ? ? H'']; subst. inversion H''. }
    etrans.
    + apply (proj2 (table_rendered_at_first_mark Sample.stray_span
                      ∅ ∅ 0 (Sample.page 0 2) [Sample.stray_table]
                      (Sample.span 0 2) 0 eq_refl eq_refl) Hout Sample.shuffled_table).
    + vm_compute; reflexivity.
Defined.

(** C2 as stated fails: the table is selected for the first page (its first
    bounding region names page 1), none of its characters lies on that
    page, and the page text holds no rendering of it. *)
Lemma selected_table_not_rendered :
  tables_on_page Sample.stray_span 0 = Ok [Sample.stray_table]
  /\ page_text_of Sample.stray_span ∅ ∅ 0 (Sample.page 0 2) = Ok "ab "
  /\ _table_to_html Sample.stray_table = "<table><tr><td>cd</td></tr></table>"
  /\ occurrences (_table_to_html Sample.stray_table) "ab " = 0%nat.
Proof. vm_compute. repeat split. Qed.

(** ** Pages without tables *)

Lemma get_lt (s : string) (n : nat) :
  (n < String.length s)%nat -> exists c, String.get n s = Some c.
Proof.
  revert n. induction s as [|a s IH]; intros n; simpl; [lia|].
  destruct n as [|n]; [by eexists|]. intros H. apply IH. lia.
Qed.

Lemma str_index_Ok (s : string) (i : Z) :
  0 <= i < Z.of_nat (String.length s) -> exists c, str_index s i = Ok c.
Proof.
  intros Hi. unfold str_index.
  destruct (Z.ltb_spec i 0); [lia|].
  destruct (Z.leb_spec 0 i); [|lia].
  destruct (Z.ltb_spec i (Z.of_nat (String.length s))); [|lia].
  simpl. destruct (get_lt s (Z.to_nat i)) as [c ->]; [lia|]. by eexists.
Qed.

Lemma scan_app_Ok (content_ : string) (rs re : gmap Z string) (page_offset : Z)
    (tabs : list DocumentTable) (l1 l2 : list (Z * Z)) (t1 t2 : string)
    (a0 a1 a2 : gset Z) :
  scan content_ rs re page_offset tabs l1 (EmptyString, a0) = Ok (t1, a1) ->
  scan content_ rs re page_offset tabs l2 (EmptyString, a1) = Ok (t2, a2) ->
  scan content_ rs re page_offset tabs (l1 ++ l2) (EmptyString, a0) = Ok (t1 +:+ t2, a2).
Proof. intros H1 H2. by rewrite scan_app, H1, bind_Ok, scan_frame, H2. Qed.

Lemma scan_one_plain (content_ : string) (rs re : gmap Z string) (page_offset : Z)
    (tabs : list DocumentTable) (idx position : Z) (c : ascii) (added : gset Z) :
  position = page_offset + idx ->
  str_index content_ position = Ok c ->
  scan content_ rs re page_offset tabs [(idx, -1)] (EmptyString, added)
  = Ok (open_tag (html_role_at rs position) +:+ close_tag (html_role_at re position)
          +:+ String c EmptyString, added).
Proof.
  intros -> H. by rewrite scan_cons, scan_step_plain, H, !bind_Ok.
Qed.

Lemma scan_plain_total (content_ : string) (rs re : gmap Z string) (page_offset : Z)
    (tabs : list DocumentTable) (m : nat) (a : Z) (added : gset Z) :
  0 <= page_offset + a ->
  page_offset + a + Z.of_nat m <= Z.of_nat (String.length content_) ->
  exists txt,
    scan content_ rs re page_offset tabs (enumerate_from a (replicate m (-1)))
         (EmptyString, added) = Ok (txt, added).
Proof.
  revert a. induction m as [|m IH]; intros a H0 H1; [by eexists|].
  destruct (str_index_Ok content_ (page_offset + a)) as [c Hc]; [lia|].
  destruct (IH (a + 1)) as [t Ht]; [lia|lia|].
  eexists. simpl replicate. simpl enumerate_from.
  change ((a, -1) :: ?l) with ([(a, -1)] ++ l).
  eapply scan_app_Ok; [by eapply scan_one_plain|exact Ht].
Qed.

Lemma enumerate_from_replicate_add {A : Type} (n : Z) (x y : nat) (v : A) :
  enumerate_from n (replicate (x + y) v)
  = enumerate_from n (replicate x v)
    ++ enumerate_from (n + Z.of_nat x) (replicate y v).
Proof. by rewrite replicate_add, enumerate_from_app, length_replicate. Qed.

(** ** A title over the offsets 5 to 9 *)

(** C4, as the code has it. Take a paragraph of role ["title"] whose first
    span is [5,10), no other paragraph whose first span starts or ends at
    offset 5 or 10, and a page without tables whose span lies inside the
    content and holds the offsets 5 to 10. Then the page text has ["<h1>"]
    immediately before the character of offset 5 and ["</h1>"] immediately
    after the character of offset 9: it is the text for the offsets before
    5, ["<h1>"], character 5, the text for the offsets 6 to 8, the tags and
    the character of offset 9, ["</h1>"], character 10, and the rest. *)
Theorem title_wrapping (results : AnalyzeResult)
    (earlier later : list DocumentParagraph) (q : DocumentParagraph)
    (page_num : Z) (page : DocumentPage) (sp : DocumentSpan) :
  paragraphs results = Some (earlier ++ q :: later) ->
  role q = Some "title" ->
  head (paragraph_spans q) = Some {| span_offset := 5; span_length := 5 |} ->
  (forall p, p ∈ earlier ++ later ->
             paragraph_spans p <> [] /\ clear_of p 5 /\ clear_of p 10) ->
  tables_on_page results page_num = Ok [] ->
  page_span page = Some sp ->
  0 <= span_offset sp <= 5 ->
  10 < span_offset sp + span_length sp <= Z.of_nat (String.length (content results)) ->
  exists rs re pre mid post c5 c9 c10,
    index_roles results = Ok (rs, re)
    /\ str_index (content results) 5 = Ok c5
    /\ str_index (content results) 9 = Ok c9
    /\ str_index (content results) 10 = Ok c10
    /\ scan (content results) rs re (span_offset sp) []
         (enumerate (replicate (Z.to_nat (5 - span_offset sp)) (-1)))
         (EmptyString, ∅) = Ok (pre, ∅)
    /\ scan (content results) rs re (span_offset sp) []
         (enumerate_from (6 - span_offset sp) (replicate 3 (-1)))
         (EmptyString, ∅) = Ok (mid, ∅)
    /\ scan (content results) rs re (span_offset sp) []
         (enumerate_from (11 - span_offset sp)
            (replicate (Z.to_nat (span_offset sp + span_length sp - 11)) (-1)))
         (EmptyString, ∅) = Ok (post, ∅)
    /\ page_text_of results rs re page_num page
       = Ok (pre +:+ "<h1>" +:+
             String c5 (mid +:+ open_tag (html_role_at rs 9)
                            +:+ close_tag (html_role_at re 9) +:+
                        String c9 ("</h1>" +:+ String c10 (post +:+ " ")))).
Proof.
  intros Hps Hrole Hq Hoth Ht Hs Hpo Hpl.
  destruct (index_loop_last earlier later q _ Hq) as (rs & re & Hfor & Hst & Hen).
  { intros p Hp. by apply Hoth. }
  simpl in Hst, Hen. unfold role_or_default in Hst, Hen. rewrite Hrole in Hst, Hen.
  assert (rs !! 5 = Some "title") as Hrs5.
  { apply Hst. intros p Hp. apply (Hoth p). apply elem_of_app. by right. }
  assert (re !! 10 = Some "title") as Hre10.
  { apply Hen. intros p Hp. apply (Hoth p). apply elem_of_app. by right. }
  destruct (index_loop_keeps _ _ _ _ _ Hfor) as [Ks Ke].
  assert (forall p, p ∈ earlier ++ q :: later ->
                    para_start p <> Some 10 /\ para_end p <> Some 5) as Hall.
  { intros p [Hp|[->|Hp]%elem_of_cons]%elem_of_app.
    - destruct (Hoth p) as (_ & [_ H5] & [H10 _]); [apply elem_of_app; by left|done].
    - unfold para_start, para_end. rewrite Hq. simpl. split; intros [=].
    - destruct (Hoth p) as (_ & [_ H5] & [H10 _]); [apply elem_of_app; by right|done]. }
  assert (rs !! 10 = None) as Hrs10.
  { rewrite Ks; [apply lookup_empty|]. intros p Hp. by apply Hall. }
  assert (re !! 5 = None) as Hre5.
  { rewrite Ke; [apply lookup_empty|]. intros p Hp. by apply Hall. }
  set (po := span_offset sp) in *. set (pl := span_length sp) in *.
  destruct (str_index_Ok (content results) 5) as [c5 Hc5]; [lia|].
  destruct (str_index_Ok (content results) 9) as [c9 Hc9]; [lia|].
  destruct (str_index_Ok (content results) 10) as [c10 Hc10]; [lia|].
  destruct (scan_plain_total (content results) rs re po [] (Z.to_nat (5 - po)) 0 ∅)
    as [pre Hpre]; [lia|lia|].
  destruct (scan_plain_total (content results) rs re po [] 3 (6 - po) ∅)
    as [mid Hmid]; [lia|lia|].
  destruct (scan_plain_total (content results) rs re po []
              (Z.to_nat (po + pl - 11)) (11 - po) ∅)
    as [post Hpost]; [lia|lia|].
  exists rs, re, pre, mid, post, c5, c9, c10.
  split; [by rewrite (index_roles_for_each _ _ Hps)|].
  do 6 (split; [done|]).
  rewrite (page_text_of_scan _ _ _ _ _ _ _ Ht Hs), mark_tables_nil.
  fold po pl.
  assert (enumerate (replicate (Z.to_nat pl) (-1))
          = enumerate (replicate (Z.to_nat (5 - po)) (-1))
            ++ [(5 - po, -1)]
            ++ enumerate_from (6 - po) (replicate 3 (-1))
            ++ [(9 - po, -1)] ++ [(10 - po, -1)]
            ++ enumerate_from (11 - po) (replicate (Z.to_nat (po + pl - 11)) (-1)))
    as ->.
  { replace (Z.to_nat pl)
      with (Z.to_nat (5 - po) + (1 + (3 + (1 + (1 + Z.to_nat (po + pl - 11))))))%nat
      by lia.
    unfold enumerate. rewrite !enumerate_from_replicate_add.
    f_equal. replace (0 + Z.of_nat (Z.to_nat (5 - po))) with (5 - po) by lia.
    simpl (enumerate_from _ (replicate 1 _)). simpl app.
    f_equal. replace (5 - po + Z.of_nat 1) with (6 - po) by lia.
    f_equal. replace (6 - po + Z.of_nat 3) with (9 - po) by lia.
    f_equal. replace (9 - po + Z.of_nat 1) with (10 - po) by lia.
    f_equal. f_equal. by replace (10 - po + Z.of_nat 1) with (11 - po) by lia. }
  erewrite scan_app_Ok; [|exact Hpre|].
  2:{ eapply scan_app_Ok; [eapply (scan_one_plain _ _ _ _ _ _ 5); [lia|exact Hc5]|].
      eapply scan_app_Ok; [exact Hmid|].
      eapply scan_app_Ok; [eapply (scan_one_plain _ _ _ _ _ _ 9); [lia|exact Hc9]|].
      eapply scan_app_Ok; [eapply (scan_one_plain _ _ _ _ _ _ 10); [lia|exact Hc10]|].
      exact Hpost. }
  rewrite bind_Ok. simpl fst.
  rewrite (html_role_at_Some _ _ _ Hrs5), (html_role_at_Some _ _ _ Hre10).
  rewrite (html_role_at_None _ _ Hrs10), (html_role_at_None _ _ Hre5).
  f_equal. rewrite !append_assoc. reflexivity.
Qed.

Lemma title_wrapping_witness :
  exists rs re,
    index_roles Sample.lone_title = Ok (rs, re)
    /\ page_text_of Sample.lone_title rs re 0 (Sample.page 0 15)
       = Ok "01234<h1>56789</h1>abcde ".
Proof.
  destruct (title_wrapping Sample.lone_title [] [] (Sample.para (Some "title") 5 5)
              0 (Sample.page 0 15) (Sample.span 0 15) eq_refl eq_refl eq_refl)
    as (rs & re & pre & mid & post & c5 & c9 & c10
        & Hr & H5 & H9 & H10 & Hpre & Hmid & Hpost & Htxt).
  - intros p Hp. inversion Hp.
  - reflexivity.
  - reflexivity.
  - simpl. lia.
  - simpl. lia.
  - exists rs, re. split; [exact Hr|]. rewrite Htxt.
    vm_compute in Hr. injection Hr as <- <-.
    vm_compute in H5, H9, H10, Hpre, Hmid, Hpost.
    injection H5 as <-. injection H9 as <-. injection H10 as <-.
    injection Hpre as <-. injection Hmid as <-. injection Hpost as <-.
    vm_compute. reflexivity.
Defined.

(** C4 as stated fails: a title over [5,10) and a later paragraph that also
    starts at offset 5. The later one overwrites the start entry, and the
    page text opens a [<p>] at offset 5 and holds no ["<h1>"] at all. *)
Lemma title_start_overwritten :
  paragraphs Sample.overwritten_title
  = Some [Sample.para (Some "title") 5 5; Sample.para None 5 3]
  /\ tables_on_page Sample.overwritten_title 0 = Ok []
  /\ reconstruct Sample.overwritten_title
     = Ok [ {| rec_page_number := 0; rec_offset := 0;
               rec_page_text := "01234<p>567</p>89</h1>abcde " |} ]
  /\ occurrences "<h1>" "01234<p>567</p>89</h1>abcde " = 0%nat.
Proof. vm_compute. repeat split. Qed.

(** ** A page covered by one table *)

Lemma fold_mark_prefix (page_offset page_length table_id n : Z) (m : nat)
    (table_chars : list Z) :
  n = Z.of_nat m ->
  Z.of_nat m <= page_length -> (m <= length table_chars)%nat ->
  fold_left
    (fun table_chars i =>
       let idx := page_offset - page_offset + i in
       if (0 <=? idx) && (idx <? page_length)
       then <[Z.to_nat idx := table_id]> table_chars
       else table_chars)
    (seqZ 0 n) table_chars
  = replicate m table_id ++ drop m table_chars.
Proof.
  intros ->. induction m as [|m IH]; intros Hm Hlen.
  - by rewrite seqZ_nil, drop_0.
  - rewrite seqZ_S, fold_left_app, IH by lia. cbn [fold_left].
    replace (page_offset - page_offset + (0 + Z.of_nat m)) with (Z.of_nat m) by lia.
    destruct (Z.leb_spec 0 (Z.of_nat m)); [|lia].
    destruct (Z.ltb_spec (Z.of_nat m) page_length); [|lia].
    cbn [andb]. rewrite Nat2Z.id.
    destruct (lookup_lt_is_Some_2 table_chars m) as [x Hx]; [lia|].
    rewrite insert_app_r_alt by (rewrite length_replicate; lia).
    rewrite length_replicate, Nat.sub_diag, (drop_S _ _ _ Hx).
    rewrite replicate_S_end, <- app_assoc. done.
Qed.

(** A table whose span is the page's span marks every character. *)
Lemma mark_tables_cover (o l : Z) (t : DocumentTable) :
  table_spans t = [ {| span_offset := o; span_length := l |} ] ->
  mark_tables o l [t] = replicate (Z.to_nat l) 0.
Proof.
  intros Hsp. unfold mark_tables, enumerate. cbn [enumerate_from fold_left mark_table].
  rewrite Hsp. cbn [fold_left]. unfold mark_span, range.
  cbn [span_offset span_length].
  destruct (Z.le_gt_cases l 0) as [Hl|Hl].
  - rewrite seqZ_nil by done. by replace (Z.to_nat l) with 0%nat by lia.
  - rewrite (fold_mark_prefix o l 0 l (Z.to_nat l))
      by (rewrite ?length_replicate; lia).
    rewrite drop_ge by (by rewrite length_replicate). apply app_nil_r.
Qed.

Lemma scan_seen_run (content_ : string) (rs re : gmap Z string) (page_offset : Z)
    (tabs : list DocumentTable) (table_id : Z) (m : nat) (a : Z)
    (txt : string) (added : gset Z) :
  table_id <> -1 -> table_id ∈ added ->
  scan content_ rs re page_offset tabs (enumerate_from a (replicate m table_id))
       (txt, added) = Ok (txt, added).
Proof.
  intros Hne Hin. revert a. induction m as [|m IH]; intros a; [done|].
  cbn [replicate enumerate_from].
  rewrite scan_cons, scan_step_table_seen, bind_Ok by done. apply IH.
Qed.

(** ** A longer content with the same beginning *)

Lemma get_app_l (s t : string) (n : nat) :
  (n < String.length s)%nat -> String.get n (s +:+ t) = String.get n s.
Proof.
  revert n. induction s as [|a s IH]; intros n H; [simpl in H; lia|].
  rewrite append_cons. destruct n as [|n]; [done|]. simpl in H |- *. apply IH. lia.
Qed.

Lemma str_index_app_l (s t : string) (i : Z) (c : ascii) :
  0 <= i -> str_index s i = Ok c -> str_index (s +:+ t) i = Ok c.
Proof.
  intros Hi. unfold str_index. rewrite length_append.
  destruct (Z.ltb_spec i 0); [lia|].
  destruct (Z.leb_spec 0 i); [|lia].
  destruct (Z.ltb_spec i (Z.of_nat (String.length s))); [|done].
  destruct (Z.ltb_spec i (Z.of_nat (String.length s + String.length t))); [|lia].
  cbn [andb]. rewrite get_app_l by lia. done.
Qed.

Lemma scan_content_app (s t : string) (rs re : gmap Z string) (page_offset : Z)
    (tabs : list DocumentTable) (l : list (Z * Z)) (st r : string * gset Z) :
  Forall (fun e => 0 <= page_offset + e.1) l ->
  scan s rs re page_offset tabs l st = Ok r ->
  scan (s +:+ t) rs re page_offset tabs l st = Ok r.
Proof.
  intros Hl. revert st. induction Hl as [|[idx tid] l He Hl IH]; intros [txt added]; [done|].
  simpl in He. rewrite !scan_cons.
  assert (forall r', scan_step s rs re page_offset tabs (txt, added) (idx, tid) = Ok r' ->
                     scan_step (s +:+ t) rs re page_offset tabs (txt, added) (idx, tid)
                     = Ok r') as Hstep.
  { intros r'. destruct (decide (tid = -1)) as [->|Hne].
    - rewrite !scan_step_plain.
      destruct (str_index s (page_offset + idx)) as [c|e] eqn:Hc; [|done].
      by rewrite (str_index_app_l _ _ _ _ He Hc).
    - destruct (decide (tid ∈ added)).
      + by rewrite !scan_step_table_seen.
      + by rewrite !scan_step_table_new. }
  destruct (scan_step s _ _ _ _ _ _) as [st'|e]; [|done].
  rewrite (Hstep st' eq_refl), !bind_Ok. apply IH.
Qed.

Lemma page_step_eq (results : AnalyzeResult) (rs re : gmap Z string)
    (page_map : list PageRecord) (offset page_num : Z) (page : DocumentPage) :
  page_step results rs re (page_map, offset) (page_num, page)
  = (page_text ← page_text_of results rs re page_num page;
     Ok (page_map ++ [ {| rec_page_number := page_num; rec_offset := offset;
                          rec_page_text := page_text |} ],
         offset + Z.of_nat (String.length page_text))).
Proof. reflexivity. Qed.

Lemma spec_cell_plain (c : DocumentTableCell) :
  kind c <> Some "columnHeader" -> column_span c = None -> row_span c = None ->
  Spec.cell c = "<td>" +:+ Spec.escape (cell_content c) +:+ "</td>".
Proof.
  intros Hk Hc Hr. unfold Spec.cell. rewrite Hc, Hr.
  by rewrite bool_decide_eq_false_2.
Qed.

Lemma abcd_table_html (o l : Z) (k : option string) :
  k <> Some "columnHeader" ->
  _table_to_html (Sample.abcd_table o l k)
  = "<table><tr><th>A</th><th>B</th></tr><tr><td>C</td><td>D</td></tr></table>".
Proof.
  intros Hk. rewrite table_to_html_spec.
  assert (table_rows (Sample.abcd_table o l k)
          = [ [Sample.data_cell 0 0 (Some "columnHeader") "A";
               Sample.data_cell 0 1 (Some "columnHeader") "B"];
              [Sample.data_cell 1 0 k "C"; Sample.data_cell 1 1 k "D"] ]) as ->
    by reflexivity.
  unfold Spec.table, Spec.row. cbn [map Spec.join fold_right].
  rewrite (spec_cell_plain (Sample.data_cell 1 0 k "C")) by done.
  rewrite (spec_cell_plain (Sample.data_cell 1 1 k "D")) by done.
  reflexivity.
Qed.

(** ** The end-to-end scenario *)

Lemma hello_page_text (rest : string) (o l : Z) (k : option string) :
  page_text_of (Sample.hello_and_table rest o l k) ∅ ∅ 0 (Sample.page 0 11)
  = Ok "Hello World ".
Proof.
  rewrite (page_text_of_scan _ ∅ ∅ 0 (Sample.page 0 11) [] (Sample.span 0 11))
    by reflexivity.
  cbn [span_offset span_length Sample.span]. rewrite mark_tables_nil.
  change (content (Sample.hello_and_table rest o l k)) with ("Hello World" +:+ rest).
  rewrite (scan_content_app "Hello World" rest ∅ ∅ 0 [] _ (EmptyString, ∅)
             ("Hello World", ∅)).
  - reflexivity.
  - eapply Forall_impl; [apply enumerate_from_bounds|]. intros e He. simpl in He. lia.
  - vm_compute; reflexivity.
Qed.

Lemma table_page_text (rest : string) (o l : Z) (k : option string) :
  0 < l -> k <> Some "columnHeader" ->
  page_text_of (Sample.hello_and_table rest o l k) ∅ ∅ 1 (Sample.page o l)
  = Ok "<table><tr><th>A</th><th>B</th></tr><tr><td>C</td><td>D</td></tr></table> ".
Proof.
  intros Hl Hk.
  rewrite (page_text_of_scan _ ∅ ∅ 1 (Sample.page o l)
             [Sample.abcd_table o l k] (Sample.span o l)) by reflexivity.
  cbn [span_offset span_length Sample.span].
  rewrite mark_tables_cover by reflexivity.
  destruct (Z.to_nat l) as [|m] eqn:Hm; [lia|].
  unfold enumerate. cbn [replicate enumerate_from].
  rewrite scan_cons, scan_step_table_new by first [done | set_solver].
  rewrite list_index_0_cons, !bind_Ok.
  rewrite scan_seen_run by first [done | set_solver].
  rewrite bind_Ok. cbn [fst]. rewrite append_nil_l, abcd_table_html by done.
  reflexivity.
Qed.

(** C7. A two-page result: page 1 is the plain text ["Hello World"], with
    no paragraphs and no table of its own; page 2 is covered by the span of
    one 2x2 table with the cells A, B (column headers) and C, D. The page
    map is ["Hello World "] at offset 0 and the rendered table followed by
    a space at offset 12. *)
Theorem hello_world_scenario (svc : string -> string -> result AnalyzeResult)
    (fmt : exn -> string) (url : string) (layout : bool)
    (rest : string) (o l : Z) (k : option string) :
  svc (if layout then "prebuilt-layout" else "prebuilt-read") url
  = Ok (Sample.hello_and_table rest o l k) ->
  0 < l -> k <> Some "columnHeader" ->
  begin_analyze_document_from_url svc fmt url layout
  = Ok [ {| rec_page_number := 0; rec_offset := 0; rec_page_text := "Hello World " |};
         {| rec_page_number := 1; rec_offset := 12;
            rec_page_text :=
              "<table><tr><th>A</th><th>B</th></tr><tr><td>C</td><td>D</td></tr></table> " |} ].
Proof.
  intros Hsvc Hl Hk. rewrite begin_analyze_attempt. unfold attempt.
  rewrite Hsvc, bind_Ok. unfold reconstruct.
  change (index_roles (Sample.hello_and_table rest o l k))
    with (Ok (∅ : gmap Z string, ∅ : gmap Z string)).
  rewrite bind_Ok. cbn [fst snd].
  change (enumerate (pages (Sample.hello_and_table rest o l k)))
    with [(0, Sample.page 0 11); (0 + 1, Sample.page o l)].
  rewrite for_each_cons, page_step_eq, hello_page_text, !bind_Ok.
  rewrite for_each_cons, page_step_eq, Z.add_0_l, table_page_text by done.
  reflexivity.
Qed.

Lemma hello_world_scenario_witness :
  begin_analyze_document_from_url
    (Sample.serve (Sample.hello_and_table " A B C D" 12 7 (Some "content")))
    Sample.no_trace "https://example/doc.pdf" true
  = Ok Sample.hello_and_table_map.
Proof.
  apply (hello_world_scenario
           (Sample.serve (Sample.hello_and_table " A B C D" 12 7 (Some "content")))
           Sample.no_trace "https://example/doc.pdf" true " A B C D" 12 7
           (Some "content")).
  - reflexivity.
  - lia.
  - discriminate.
Defined.

(** ** Failure *)

Lemma list_index_raises {A : Type} (l : list A) (i : Z) (e : exn) :
  list_index l i = Raise e -> is_exception e = true.
Proof.
  unfold list_index. destruct (_ && _); [destruct (l !! _)|]; intros ?; by simplify_eq.
Qed.

Lemma str_index_raises (s : string) (i : Z) (e : exn) :
  str_index s i = Raise e -> is_exception e = true.
Proof.
  unfold str_index. destruct (_ && _); [destruct (String.get _ s)|];
    intros ?; by simplify_eq.
Qed.

Lemma for_each_raises {A S : Type} (P : exn -> Prop) (body : S -> A -> result S)
    (l : list A) (s : S) (e : exn) :
  (forall s x e, body s x = Raise e -> P e) -> for_each body l s = Raise e -> P e.
Proof.
  intros Hbody. revert s. induction l as [|x l IH]; intros s; [done|].
  rewrite for_each_cons. destruct (body s x) as [s'|e'] eqn:Hx.
  - rewrite bind_Ok. apply IH.
  - rewrite bind_Raise. intros [= <-]. by eapply Hbody.
Qed.

Lemma index_paragraph_raises (st : gmap Z string * gmap Z string)
    (p : DocumentParagraph) (e : exn) :
  index_paragraph st p = Raise e -> is_exception e = true.
Proof.
  destruct st as [rs re]. unfold index_paragraph.
  destruct (list_index (paragraph_spans p) 0) as [s0|e0] eqn:H0.
  - by rewrite !bind_Ok.
  - rewrite bind_Raise. intros [= <-]. by eapply list_index_raises.
Qed.

Lemma select_tables_raises_exception (page_num : Z) (ts : list DocumentTable) (e : exn) :
  select_tables page_num ts = Raise e -> is_exception e = true.
Proof.
  induction ts as [|t ts IH]; [done|]. rewrite select_tables_cons.
  destruct (list_index (bounding_regions t) 0) as [br|e0] eqn:H0.
  - rewrite bind_Ok. destruct (select_tables page_num ts) as [rest|e1]; [done|].
    rewrite bind_Raise. intros [= <-]. by apply IH.
  - rewrite bind_Raise. intros [= <-]. by eapply list_index_raises.
Qed.

Lemma scan_step_raises (content_ : string) (rs re : gmap Z string) (page_offset : Z)
    (tabs : list DocumentTable) (st : string * gset Z) (entry : Z * Z) (e : exn) :
  scan_step content_ rs re page_offset tabs st entry = Raise e -> is_exception e = true.
Proof.
  destruct st as [txt added], entry as [idx tid].
  destruct (decide (tid = -1)) as [->|Hne].
  - rewrite scan_step_plain.
    destruct (str_index content_ (page_offset + idx)) as [c|e0] eqn:H0; [done|].
    rewrite bind_Raise. intros [= <-]. by eapply str_index_raises.
  - destruct (decide (tid ∈ added)).
    + by rewrite scan_step_table_seen.
    + rewrite scan_step_table_new by done.
      destruct (list_index tabs tid) as [t|e0] eqn:H0; [done|].
      rewrite bind_Raise. intros [= <-]. by eapply list_index_raises.
Qed.

Lemma page_text_of_raises (results : AnalyzeResult) (rs re : gmap Z string)
    (page_num : Z) (page : DocumentPage) (e : exn) :
  page_text_of results rs re page_num page = Raise e -> is_exception e = true.
Proof.
  unfold page_text_of.
  destruct (tables_on_page results page_num) as [tabs|e0] eqn:Ht.
  - rewrite bind_Ok.
    destruct (list_index (page_spans page) 0) as [sp|e1] eqn:Hs.
    + rewrite !bind_Ok.
      destruct (scan _ _ _ _ _ _ _) as [st|e2] eqn:Hscan; [done|].
      rewrite bind_Raise. intros [= <-].
      eapply (for_each_raises (fun e => is_exception e = true)); [|exact Hscan].
      intros s x e'. apply scan_step_raises.
    + rewrite bind_Raise. intros [= <-]. by eapply list_index_raises.
  - rewrite bind_Raise. intros [= <-]. unfold tables_on_page in Ht.
    destruct (tables results) as [[|t ts]|]; try done.
    by eapply select_tables_raises_exception.
Qed.

(** Whatever the reconstruction raises derives from [Exception]. *)
Lemma reconstruct_raises (results : AnalyzeResult) (e : exn) :
  reconstruct results = Raise e -> is_exception e = true.
Proof.
  unfold reconstruct. destruct (index_roles results) as [[rs re]|e0] eqn:Hr.
  - rewrite bind_Ok. cbn [fst snd].
    destruct (for_each _ _ _) as [st|e1] eqn:Hl; [done|].
    rewrite bind_Raise. intros [= <-].
    eapply (for_each_raises (fun e => is_exception e = true)); [|exact Hl].
    intros [pm off] [n p] e'. rewrite page_step_eq.
    destruct (page_text_of results rs re n p) as [txt|e2] eqn:Hp; [done|].
    rewrite bind_Raise. intros [= <-]. by eapply page_text_of_raises.
  - rewrite bind_Raise. intros [= <-]. unfold index_roles in Hr.
    destruct (paragraphs results) as [[|p ps]|]; try done.
    eapply (for_each_raises (fun e => is_exception e = true)); [|exact Hr].
    intros s x e'. apply index_paragraph_raises.
Qed.

(** C6, as the code has it. An exception that derives from [Exception],
    raised while the document is submitted or reconstructed, comes out as
    one [ValueError] whose cause is that exception and whose message holds
    the formatted trace; whatever the reconstruction raises is of that kind.
    An exception that does not derive from [Exception] ([KeyboardInterrupt],
    [SystemExit]) is not caught and leaves the function as it is. These are
    the only ways to fail; no page map is returned on failure, and a page
    map that is returned is the complete one, with a record for every
    page. *)
Theorem failure_is_wrapped (svc : string -> string -> result AnalyzeResult)
    (fmt : exn -> string) (url : string) (layout : bool) :
  (forall e, attempt svc url layout = Raise e -> is_exception e = true ->
     begin_analyze_document_from_url svc fmt url layout
     = Raise (ValueError ("Error: " +:+ fmt e +:+ ". Error: " +:+ str_exn e) e))
  /\ (forall e, attempt svc url layout = Raise e -> is_exception e = false ->
        begin_analyze_document_from_url svc fmt url layout = Raise e)
  /\ (forall e', begin_analyze_document_from_url svc fmt url layout = Raise e' ->
        exists e, attempt svc url layout = Raise e
                  /\ (is_exception e = true /\ e' = ValueError (wrapped_message fmt e) e
                      \/ is_exception e = false /\ e' = e))
  /\ (forall results e, reconstruct results = Raise e -> is_exception e = true)
  /\ (forall page_map,
        begin_analyze_document_from_url svc fmt url layout = Ok page_map ->
        exists results,
          svc (if layout then "prebuilt-layout" else "prebuilt-read") url = Ok results
          /\ reconstruct results = Ok page_map
          /\ length page_map = length (pages results)).
Proof.
  rewrite begin_analyze_attempt. split; [|split; [|split; [|split]]].
  - by intros e -> ->.
  - by intros e -> ->.
  - intros e'. destruct (attempt svc url layout) as [pm|e]; [done|].
    destruct (is_exception e) eqn:He; intros [= <-]; exists e; split; auto.
  - apply reconstruct_raises.
  - intros pm H.
    assert (begin_analyze_document_from_url svc fmt url layout = Ok pm) as Hb.
    { rewrite begin_analyze_attempt. exact H. }
    apply begin_analyze_Ok in Hb as (r & Hs & Hr).
    exists r. split; [done|]. split; [done|]. by apply reconstruct_length.
Qed.

Lemma failure_is_wrapped_witness :
  begin_analyze_document_from_url Sample.unavailable Sample.no_trace "u" false
  = Raise (ValueError "Error: Traceback. Error: 503 Service Unavailable"
             (ServiceError "503 Service Unavailable"))
  /\ begin_analyze_document_from_url (Sample.serve Sample.spanless_page)
       Sample.no_trace "u" true
     = Raise (ValueError "Error: Traceback. Error: list index out of range"
                (IndexError "list index out of range"))
  /\ begin_analyze_document_from_url Sample.interrupted Sample.no_trace "u" true
     = Raise KeyboardInterrupt.
Proof.
  split; [|split].
  - apply (proj1 (failure_is_wrapped Sample.unavailable Sample.no_trace "u" false)
             (ServiceError "503 Service Unavailable")).
    + vm_compute; reflexivity.
    + reflexivity.
  - apply (proj1 (failure_is_wrapped (Sample.serve Sample.spanless_page)
                    Sample.no_trace "u" true)
             (IndexError "list index out of range")).
    + vm_compute; reflexivity.
    + reflexivity.
  - apply (proj1 (proj2 (failure_is_wrapped Sample.interrupted Sample.no_trace
                           "u" true)) KeyboardInterrupt).
    + reflexivity.
    + reflexivity.
Defined.

(** C6 as stated fails: the call to the service is interrupted from the
    keyboard; [KeyboardInterrupt] does not derive from [Exception], the
    handler does not catch it, and it leaves the function unwrapped: what
    is raised is no [ValueError] and carries no cause. *)
Lemma interrupt_is_not_wrapped :
  attempt Sample.interrupted "https://example/doc.pdf" true = Raise KeyboardInterrupt
  /\ begin_analyze_document_from_url Sample.interrupted Sample.no_trace
       "https://example/doc.pdf" true
     = Raise KeyboardInterrupt
  /\ forall msg cause,
       begin_analyze_document_from_url Sample.interrupted Sample.no_trace
         "https://example/doc.pdf" true
       <> Raise (ValueError msg cause).
Proof. repeat split. intros msg cause. discriminate. Qed.

(** * Further properties of the code *)

(** ** The records of the page map *)

Lemma reconstruct_loop (results : AnalyzeResult) (page_map : list PageRecord) :
  reconstruct results = Ok page_map ->
  exists rs re offset,
    index_roles results = Ok (rs, re)
    /\ for_each (page_step results rs re) (enumerate (pages results)) ([], 0)
       = Ok (page_map, offset).
Proof.
  unfold reconstruct. destruct (index_roles results) as [[rs re]|e]; [|done].
  rewrite bind_Ok. cbn [fst snd].
  destruct (for_each _ _ _) as [[pm off]|e] eqn:Hl; [|done].
  rewrite bind_Ok. intros [= <-]. by exists rs, re, off.
Qed.

Lemma page_loop_numbers (results : AnalyzeResult) (rs re : gmap Z string)
    (l : list DocumentPage) (n : Z) (page_map page_map' : list PageRecord)
    (offset offset' : Z) :
  for_each (page_step results rs re) (enumerate_from n l) (page_map, offset)
  = Ok (page_map', offset') ->
  rec_page_number <$> page_map'
  = (rec_page_number <$> page_map) ++ seqZ n (Z.of_nat (length l)).
Proof.
  revert n page_map offset. induction l as [|p l IH]; intros n pm off.
  - intros [= <- <-]. by rewrite seqZ_nil, app_nil_r.
  - cbn [enumerate_from]. rewrite for_each_cons, page_step_eq.
    destruct (page_text_of results rs re n p) as [txt|e]; [|done].
    rewrite !bind_Ok. intros Hl. rewrite (IH _ _ _ Hl), fmap_app, <- app_assoc.
    f_equal. cbn [fmap list_fmap rec_page_number length].
    rewrite (seqZ_cons n) by lia. cbn [app]. do 2 f_equal; lia.
Qed.

(** X1. The records of the returned page map are numbered by position,
    from 0: the record at index [i] has [page_number = i], whatever page
    numbers the analysis result carries. *)
Theorem page_numbers_are_positions (svc : string -> string -> result AnalyzeResult)
    (fmt : exn -> string) (url : string) (layout : bool) (page_map : list PageRecord) :
  begin_analyze_document_from_url svc fmt url layout = Ok page_map ->
  forall (i : nat) r, page_map !! i = Some r -> rec_page_number r = Z.of_nat i.
Proof.
  intros (results & _ & Hr)%begin_analyze_Ok i r Hi.
  destruct (reconstruct_loop _ _ Hr) as (rs & re & off & _ & Hl).
  apply page_loop_numbers in Hl. cbn [fmap list_fmap app] in Hl.
  assert ((rec_page_number <$> page_map) !! i = Some (rec_page_number r)) as Hn
    by (by rewrite list_lookup_fmap, Hi).
  rewrite Hl in Hn. apply lookup_seqZ in Hn as [-> _]. lia.
Qed.

Lemma page_numbers_are_positions_witness :
  exists r, Sample.title_and_table_map !! 1%nat = Some r
            /\ rec_page_number r = Z.of_nat 1.
Proof.
  eexists. split; [reflexivity|].
  apply (page_numbers_are_positions (Sample.serve Sample.title_and_table)
           Sample.no_trace "https://example/doc.pdf" true
           Sample.title_and_table_map).
  - vm_compute; reflexivity.
  - reflexivity.
Defined.

Lemma page_text_of_space (results : AnalyzeResult) (rs re : gmap Z string)
    (page_num : Z) (page : DocumentPage) (txt : string) :
  page_text_of results rs re page_num page = Ok txt -> ends_with_space txt.
Proof.
  unfold page_text_of.
  destruct (tables_on_page results page_num) as [tabs|e]; [|done]. rewrite bind_Ok.
  destruct (list_index (page_spans page) 0) as [sp|e]; [|done]. rewrite !bind_Ok.
  destruct (scan _ _ _ _ _ _ _) as [[t a]|e]; [|done]. rewrite bind_Ok.
  intros [= <-]. by exists t.
Qed.

Lemma page_loop_space (results : AnalyzeResult) (rs re : gmap Z string)
    (l : list (Z * DocumentPage)) (page_map page_map' : list PageRecord)
    (offset offset' : Z) :
  for_each (page_step results rs re) l (page_map, offset) = Ok (page_map', offset') ->
  Forall (fun r => ends_with_space (rec_page_text r)) page_map ->
  Forall (fun r => ends_with_space (rec_page_text r)) page_map'.
Proof.
  revert page_map offset. induction l as [|[n p] l IH]; intros pm off.
  - by intros [= <- <-].
  - rewrite for_each_cons, page_step_eq.
    destruct (page_text_of results rs re n p) as [txt|e] eqn:Ht; [|done].
    rewrite !bind_Ok. intros Hl Hpm. eapply IH; [exact Hl|].
    apply Forall_app. split; [done|]. constructor; [|done].
    by eapply page_text_of_space.
Qed.

Lemma ends_with_space_length (s : string) :
  ends_with_space s -> (1 <= String.length s)%nat.
Proof. intros [body ->]. rewrite length_append. simpl. lia. Qed.

Lemma chained_increasing (start stop : Z) (page_map : list PageRecord) :
  chained start page_map stop ->
  Forall (fun r => 1 <= text_length r) page_map ->
  (forall (j : nat) b, page_map !! j = Some b -> start <= rec_offset b)
  /\ (forall (i j : nat) a b, (i < j)%nat ->
        page_map !! i = Some a -> page_map !! j = Some b ->
        rec_offset a < rec_offset b).
Proof.
  revert start. induction page_map as [|x l IH]; intros start Hc Hl.
  - split; intros; discriminate.
  - destruct Hc as [Hx Hc]. apply Forall_cons in Hl as [Hx1 Hl].
    destruct (IH _ Hc Hl) as [IHge IHlt]. split.
    + intros [|j] b Hb; simpl in Hb; [injection Hb as <-; lia|].
      specialize (IHge j b Hb). lia.
    + intros [|i] [|j] a b Hij Ha Hb; simpl in Ha, Hb; try lia.
      * injection Ha as <-. specialize (IHge j b Hb). lia.
      * apply (IHlt i j); [lia|done|done].
Qed.

(** X2. Every page text of the returned page map ends with the separating
    space, so no page text is empty, and the offsets grow strictly from one
    record to the next. *)
Theorem page_texts_end_with_space (svc : string -> string -> result AnalyzeResult)
    (fmt : exn -> string) (url : string) (layout : bool) (page_map : list PageRecord) :
  begin_analyze_document_from_url svc fmt url layout = Ok page_map ->
  (forall (i : nat) r, page_map !! i = Some r ->
     exists body, rec_page_text r = body +:+ " ")
  /\ (forall (i j : nat) a b, (i < j)%nat ->
        page_map !! i = Some a -> page_map !! j = Some b ->
        rec_offset a < rec_offset b).
Proof.
  intros (results & _ & Hr)%begin_analyze_Ok.
  destruct (reconstruct_loop _ _ Hr) as (rs & re & off & _ & Hl).
  pose proof (page_loop_space _ _ _ _ _ _ _ _ Hl (List.Forall_nil _)) as Hsp.
  split.
  - intros i r Hi. rewrite Forall_forall in Hsp. apply Hsp.
    by eapply list_elem_of_lookup_2.
  - apply (chained_increasing 0 off).
    + by eapply page_loop_chained.
    + eapply Forall_impl; [exact Hsp|]. intros r Hrs.
      apply ends_with_space_length in Hrs. unfold text_length. lia.
Qed.

Lemma page_texts_end_with_space_witness :
  (exists body, "</h1>def " = body +:+ " ") /\ 0 < 8.
Proof.
  destruct (page_texts_end_with_space (Sample.serve Sample.abutting_pages)
              Sample.no_trace "https://example/doc.pdf" true
              Sample.abutting_pages_map) as [Hspace Hlt].
  - vm_compute; reflexivity.
  - split.
    + apply (Hspace 1%nat {| rec_page_number := 1; rec_offset := 8;
                             rec_page_text := "</h1>def " |}). reflexivity.
    + apply (Hlt 0%nat 1%nat
               {| rec_page_number := 0; rec_offset := 0; rec_page_text := "<h1>abc " |}
               {| rec_page_number := 1; rec_offset := 8; rec_page_text := "</h1>def " |});
        [lia|reflexivity|reflexivity].
Defined.

(** ** Results the code cannot index *)

Lemma index_paragraph_spanless (st : gmap Z string * gmap Z string)
    (p : DocumentParagraph) :
  paragraph_spans p = [] -> index_paragraph st p = Raise no_first_item.
Proof. destruct st as [rs re]. unfold index_paragraph. by intros ->. Qed.

Lemma index_loop_raises (l : list DocumentParagraph) (p : DocumentParagraph)
    (st : gmap Z string * gmap Z string) :
  p ∈ l -> paragraph_spans p = [] ->
  for_each index_paragraph l st = Raise no_first_item.
Proof.
  intros Hin Hp. revert st. induction l as [|q l IH]; intros st.
  - by apply elem_of_nil in Hin.
  - rewrite for_each_cons. destruct (paragraph_spans q) as [|s sp] eqn:Hq.
    + by rewrite (index_paragraph_spanless _ _ Hq).
    + destruct st as [rs re].
      rewrite (index_paragraph_Ok rs re q s) by (by rewrite Hq). rewrite bind_Ok.
      apply IH. apply elem_of_cons in Hin as [->|Hin]; [|done].
      by rewrite Hp in Hq.
Qed.

(** X3. One paragraph without spans anywhere in the paragraphs makes the
    whole call fail, whatever the pages hold: [paragraph.spans[0]] raises
    [IndexError], which is wrapped in the [ValueError]. *)
Theorem spanless_paragraph_fails (svc : string -> string -> result AnalyzeResult)
    (fmt : exn -> string) (url : string) (layout : bool)
    (results : AnalyzeResult) (ps : list DocumentParagraph) (p : DocumentParagraph) :
  svc (if layout then "prebuilt-layout" else "prebuilt-read") url = Ok results ->
  paragraphs results = Some ps -> p ∈ ps -> paragraph_spans p = [] ->
  begin_analyze_document_from_url svc fmt url layout
  = Raise (ValueError ("Error: " +:+ fmt (IndexError "list index out of range")
                         +:+ ". Error: list index out of range")
             (IndexError "list index out of range")).
Proof.
  intros Hsvc Hps Hin Hp. rewrite begin_analyze_attempt. unfold attempt.
  rewrite Hsvc, bind_Ok. unfold reconstruct.
  by rewrite (index_roles_for_each _ _ Hps), (index_loop_raises _ _ _ Hin Hp).
Qed.

Lemma spanless_paragraph_fails_witness :
  begin_analyze_document_from_url (Sample.serve Sample.spanless_paragraph)
    Sample.no_trace "https://example/doc.pdf" true
  = Raise (ValueError "Error: Traceback. Error: list index out of range"
             (IndexError "list index out of range")).
Proof.
  apply (spanless_paragraph_fails (Sample.serve Sample.spanless_paragraph)
           Sample.no_trace "https://example/doc.pdf" true Sample.spanless_paragraph
           [Sample.para (Some "title") 0 5;
            {| role := None; paragraph_spans := [] |};
            Sample.para None 6 5]
           {| role := None; paragraph_spans := [] |}).
  - reflexivity.
  - reflexivity.
  - right. left.
  - reflexivity.
Defined.

Lemma select_tables_raises (page_num : Z) (ts : list DocumentTable) (t : DocumentTable) :
  t ∈ ts -> bounding_regions t = [] ->
  select_tables page_num ts = Raise no_first_item.
Proof.
  intros Hin Ht. induction ts as [|t0 ts IH].
  - by apply elem_of_nil in Hin.
  - rewrite select_tables_cons. destruct (bounding_regions t0) as [|br brs] eqn:Hbr.
    + done.
    + rewrite list_index_0_cons, bind_Ok.
      apply elem_of_cons in Hin as [->|Hin]; [by rewrite Ht in Hbr|].
      by rewrite (IH Hin).
Qed.

(** X4. A table without bounding regions makes the reconstruction fail on
    the first page, also when the table would belong to no page of the
    document; only a document without pages is reconstructed (to the empty
    page map), because the tables are looked at page by page. *)
Theorem regionless_table_fails (results : AnalyzeResult)
    (roles : gmap Z string * gmap Z string) (ts : list DocumentTable)
    (t : DocumentTable) :
  index_roles results = Ok roles ->
  tables results = Some ts -> t ∈ ts -> bounding_regions t = [] ->
  (pages results <> [] ->
   reconstruct results = Raise (IndexError "list index out of range"))
  /\ (pages results = [] -> reconstruct results = Ok []).
Proof.
  intros Hr Hts Hin Ht. unfold reconstruct. rewrite Hr, bind_Ok. split.
  - destruct (pages results) as [|p l]; [done|]. intros _.
    unfold enumerate. cbn [enumerate_from].
    rewrite for_each_cons, page_step_eq. unfold page_text_of.
    rewrite (tables_on_page_select _ _ _ Hts), (select_tables_raises _ _ _ Hin Ht).
    done.
  - by intros ->.
Qed.

Lemma regionless_table_fails_witness :
  reconstruct Sample.regionless_table = Raise (IndexError "list index out of range")
  /\ reconstruct (with_tables {| content := "Hello World"; pages := [];
                                  paragraphs := None; tables := None |}
                    (tables Sample.regionless_table)) = Ok [].
Proof.
  split.
  - apply (proj1 (regionless_table_fails Sample.regionless_table (∅, ∅)
                    [ {| row_count := 0; cells := [];
                         bounding_regions := []; table_spans := [] |} ]
                    {| row_count := 0; cells := [];
                       bounding_regions := []; table_spans := [] |}
                    eq_refl eq_refl (list_elem_of_here _ _) eq_refl)).
    discriminate.
  - apply (proj2 (regionless_table_fails
                    (with_tables {| content := "Hello World"; pages := [];
                                    paragraphs := None; tables := None |}
                       (tables Sample.regionless_table)) (∅, ∅)
                    [ {| row_count := 0; cells := [];
                         bounding_regions := []; table_spans := [] |} ]
                    {| row_count := 0; cells := [];
                       bounding_regions := []; table_spans := [] |}
                    eq_refl eq_refl (list_elem_of_here _ _) eq_refl)).
    reflexivity.
Defined.

(** ** Pages at the edges of the content *)

(** X5. A page whose span has length 0 or less gives the text [" "], the
    separator alone, whatever tables are selected for it and whatever the
    role dicts hold; the content is not read. *)
Theorem empty_page_is_a_space (results : AnalyzeResult) (rs re : gmap Z string)
    (page_num : Z) (page : DocumentPage) (tabs : list DocumentTable)
    (sp : DocumentSpan) :
  tables_on_page results page_num = Ok tabs ->
  page_span page = Some sp ->
  span_length sp <= 0 ->
  page_text_of results rs re page_num page = Ok " ".
Proof.
  intros Ht Hs Hl. rewrite (page_text_of_scan _ _ _ _ _ _ _ Ht Hs).
  pose proof (mark_tables_length (span_offset sp) (span_length sp) tabs) as Hlen.
  destruct (mark_tables _ _ tabs) as [|x l]; [done|]. simpl in Hlen. lia.
Qed.

Lemma empty_page_is_a_space_witness :
  page_text_of Sample.empty_first_page (<[0 := "paragraph"]> ∅)
    (<[3 := "paragraph"]> ∅) 0 (Sample.page 0 0) = Ok " ".
Proof.
  apply (empty_page_is_a_space Sample.empty_first_page (<[0 := "paragraph"]> ∅)
           (<[3 := "paragraph"]> ∅) 0 (Sample.page 0 0) [] (Sample.span 0 0)).
  - reflexivity.
  - reflexivity.
  - simpl. lia.
Defined.

Lemma substring_0 (s : string) (n : nat) : substring n 0 s = EmptyString.
Proof.
  revert n. induction s as [|a s IH]; intros [|n]; simpl; done.
Qed.

Lemma substring_S (s : string) (n m : nat) (c : ascii) :
  String.get n s = Some c ->
  substring n (S m) s = String c (substring (S n) m s).
Proof.
  revert n. induction s as [|a s IH]; intros [|n]; simpl; try done.
  - by intros [= ->].
  - intros H. rewrite (IH _ H). done.
Qed.

Lemma str_index_get (s : string) (i : Z) (c : ascii) :
  0 <= i -> str_index s i = Ok c -> String.get (Z.to_nat i) s = Some c.
Proof.
  intros Hi. unfold str_index.
  destruct (Z.ltb_spec i 0); [lia|].
  destruct ((0 <=? i) && (i <? Z.of_nat (String.length s))); [|done].
  destruct (String.get (Z.to_nat i) s); [|done]. by intros [= ->].
Qed.

Lemma str_index_beyond (s : string) (i : Z) :
  Z.of_nat (String.length s) <= i -> str_index s i = Raise no_such_char.
Proof.
  intros Hi. unfold str_index.
  destruct (Z.ltb_spec i 0); [lia|].
  destruct (Z.ltb_spec i (Z.of_nat (String.length s))); [lia|].
  by rewrite andb_false_r.
Qed.

Lemma dict_get_tagless (r : string) :
  tagless r -> dict_get form_recognizer_role_to_html r = None.
Proof.
  intros (H1 & H2 & H3). unfold form_recognizer_role_to_html. cbn [dict_get].
  destruct (String.eqb_spec "title" r); [done|].
  destruct (String.eqb_spec "sectionHeading" r); [done|].
  destruct (String.eqb_spec "pageHeader" r); [done|].
  destruct (String.eqb_spec "pageFooter" r); [done|].
  by destruct (String.eqb_spec "paragraph" r).
Qed.

Lemma html_role_at_tagless (roles : gmap Z string) (k : Z) :
  (forall r, roles !! k = Some r -> tagless r) -> html_role_at roles k = None.
Proof.
  intros H. destruct (roles !! k) as [r|] eqn:Hr.
  - rewrite (html_role_at_Some _ _ _ Hr). by apply dict_get_tagless, H.
  - by apply html_role_at_None.
Qed.

Lemma scan_plain_slice (content_ : string) (rs re : gmap Z string) (page_offset : Z)
    (tabs : list DocumentTable) (m : nat) (a : Z) (added : gset Z) :
  0 <= page_offset + a ->
  page_offset + a + Z.of_nat m <= Z.of_nat (String.length content_) ->
  (forall k, page_offset + a <= k < page_offset + a + Z.of_nat m ->
             html_role_at rs k = None /\ html_role_at re k = None) ->
  scan content_ rs re page_offset tabs (enumerate_from a (replicate m (-1)))
       (EmptyString, added)
  = Ok (substring (Z.to_nat (page_offset + a)) m content_, added).
Proof.
  revert a. induction m as [|m IH]; intros a H0 H1 Hr.
  - by rewrite substring_0.
  - destruct (str_index_Ok content_ (page_offset + a)) as [c Hc]; [lia|].
    destruct (Hr (page_offset + a)) as [Hs He]; [lia|].
    cbn [replicate enumerate_from].
    change ((a, -1) :: ?l) with ([(a, -1)] ++ l).
    erewrite scan_app_Ok;
      [|by eapply scan_one_plain
       |apply (IH (a + 1)); [lia|lia|intros k Hk; apply Hr; lia]].
    rewrite Hs, He. cbn [open_tag close_tag]. rewrite !append_nil_l.
    rewrite (substring_S _ _ _ c) by (by apply str_index_get; [lia|]).
    do 2 f_equal. rewrite append_cons, append_nil_l.
    do 2 f_equal. lia.
Qed.

(** X6. On a page without tables whose span lies inside the content, when
    every role recorded at an offset of the page is one without a tag
    (pageHeader, pageFooter or a role the table does not know), the page
    text is the page's slice of the content followed by a space; so it is
    with no paragraphs at all, as the read model gives them. *)
Theorem plain_page_is_content_slice (results : AnalyzeResult) (rs re : gmap Z string)
    (page_num : Z) (page : DocumentPage) (sp : DocumentSpan) :
  tables_on_page results page_num = Ok [] ->
  page_span page = Some sp ->
  0 <= span_offset sp ->
  span_offset sp + span_length sp <= Z.of_nat (String.length (content results)) ->
  (forall k r, span_offset sp <= k < span_offset sp + span_length sp ->
               rs !! k = Some r \/ re !! k = Some r -> tagless r) ->
  page_text_of results rs re page_num page
  = Ok (substring (Z.to_nat (span_offset sp)) (Z.to_nat (span_length sp))
          (content results) +:+ " ").
Proof.
  intros Ht Hs Hpo Hpl Hroles.
  rewrite (page_text_of_scan _ _ _ _ _ _ _ Ht Hs), mark_tables_nil.
  unfold enumerate. destruct (Z.le_gt_cases (span_length sp) 0) as [Hle|Hgt].
  { replace (Z.to_nat (span_length sp)) with 0%nat by lia.
    by rewrite substring_0. }
  rewrite scan_plain_slice.
  - rewrite bind_Ok. cbn [fst]. by rewrite Z.add_0_r.
  - lia.
  - lia.
  - intros k Hk. split; apply html_role_at_tagless; intros r Hr;
      apply (Hroles k r); first [lia | by left | by right].
Qed.

Lemma plain_page_is_content_slice_witness :
  page_text_of Sample.header_only
    (<[6 := "footnote"]> (<[0 := "pageHeader"]> ∅))
    (<[11 := "footnote"]> (<[5 := "pageHeader"]> ∅)) 0 (Sample.page 0 11)
  = Ok "Hello World ".
Proof.
  apply (plain_page_is_content_slice Sample.header_only
           (<[6 := "footnote"]> (<[0 := "pageHeader"]> ∅))
           (<[11 := "footnote"]> (<[5 := "pageHeader"]> ∅))
           0 (Sample.page 0 11) (Sample.span 0 11)).
  - reflexivity.
  - reflexivity.
  - simpl. lia.
  - simpl. lia.
  - intros k r _ [H|H].
    + destruct (decide (k = 6)) as [->|]; [|destruct (decide (k = 0)) as [->|]].
      * rewrite lookup_insert_eq in H. injection H as <-. by repeat split.
      * rewrite lookup_insert_ne, lookup_insert_eq in H by lia.
        injection H as <-. by repeat split.
      * by rewrite !lookup_insert_ne, lookup_empty in H by lia.
    + destruct (decide (k = 11)) as [->|]; [|destruct (decide (k = 5)) as [->|]].
      * rewrite lookup_insert_eq in H. injection H as <-. by repeat split.
      * rewrite lookup_insert_ne, lookup_insert_eq in H by lia.
        injection H as <-. by repeat split.
      * by rewrite !lookup_insert_ne, lookup_empty in H by lia.
Defined.

(** X7. A page without tables whose span starts at a non-negative offset
    and runs past the end of the content is not cut short at the end of the
    content: the page has no text, an exception that derives from
    [Exception] is raised instead. *)
Theorem page_past_content_fails (results : AnalyzeResult) (rs re : gmap Z string)
    (page_num : Z) (page : DocumentPage) (sp : DocumentSpan) :
  tables_on_page results page_num = Ok [] ->
  page_span page = Some sp ->
  0 <= span_offset sp ->
  0 < span_length sp ->
  Z.of_nat (String.length (content results)) < span_offset sp + span_length sp ->
  exists e, page_text_of results rs re page_num page = Raise e
            /\ is_exception e = true.
Proof.
  intros Ht Hs Hpo Hpl Hlen. exists no_such_char. split; [|done].
  rewrite (page_text_of_scan _ _ _ _ _ _ _ Ht Hs), mark_tables_nil.
  set (po := span_offset sp) in *. set (pl := span_length sp) in *.
  set (len := Z.of_nat (String.length (content results))) in *.
  set (m0 := Z.to_nat (len - po)).
  replace (Z.to_nat pl) with (m0 + (1 + Z.to_nat (pl - 1 - Z.of_nat m0)))%nat
    by (subst m0; lia).
  unfold enumerate. rewrite !enumerate_from_replicate_add, scan_app.
  assert (exists txt, scan (content results) rs re po []
                        (enumerate_from 0 (replicate m0 (-1))) (EmptyString, ∅)
                      = Ok (txt, ∅)) as [txt ->].
  { destruct m0 as [|m0'] eqn:Hm0; [by eexists|].
    apply scan_plain_total; subst len; lia. }
  rewrite bind_Ok. cbn [replicate enumerate_from app].
  rewrite scan_cons, scan_step_plain, str_index_beyond by (subst m0 len; lia).
  done.
Qed.

Lemma page_past_content_fails_witness :
  exists e, page_text_of Sample.overlong_page ∅ ∅ 0 (Sample.page 2 8) = Raise e
            /\ is_exception e = true.
Proof.
  apply (page_past_content_fails Sample.overlong_page ∅ ∅ 0 (Sample.page 2 8)
           (Sample.span 2 8)).
  - reflexivity.
  - reflexivity.
  - simpl. lia.
  - simpl. lia.
  - simpl. lia.
Defined.

(** ** Which table marks a character *)

Lemma existsb_range_cover (off page_offset len : Z) (idx : nat) :
  existsb (fun i => off - page_offset + i =? Z.of_nat idx) (seqZ 0 len)
  = (off <=? page_offset + Z.of_nat idx) && (page_offset + Z.of_nat idx <? off + len).
Proof.
  apply Bool.eq_iff_eq_true. rewrite existsb_exists, andb_true_iff.
  rewrite Z.leb_le, Z.ltb_lt. split.
  - intros (i & Hi%list_elem_of_In%elem_of_seqZ & Heq%Z.eqb_eq). lia.
  - intros [H1 H2]. exists (page_offset + Z.of_nat idx - off). split.
    + apply list_elem_of_In, elem_of_seqZ. lia.
    + apply Z.eqb_eq. lia.
Qed.

Lemma fold_mark_lookup (off page_offset page_length table_id : Z) (l : list Z)
    (table_chars : list Z) (idx : nat) :
  length table_chars = Z.to_nat page_length -> (idx < Z.to_nat page_length)%nat ->
  fold_left
    (fun table_chars i =>
       let j := off - page_offset + i in
       if (0 <=? j) && (j <? page_length)
       then <[Z.to_nat j := table_id]> table_chars
       else table_chars) l table_chars !! idx
  = if existsb (fun i => off - page_offset + i =? Z.of_nat idx) l
    then Some table_id else table_chars !! idx.
Proof.
  intros Hlen Hidx. revert table_chars Hlen.
  induction l as [|i l IH]; intros tc Hlen; [done|].
  cbn [fold_left existsb]. set (j := off - page_offset + i).
  destruct (Z.leb_spec 0 j) as [H0|H0]; destruct (Z.ltb_spec j page_length) as [H1|H1];
    cbn [andb].
  - rewrite IH by (by rewrite length_insert).
    destruct (existsb _ l); [by rewrite orb_true_r|]. rewrite orb_false_r.
    destruct (Z.eqb_spec j (Z.of_nat idx)) as [Heq|Hne].
    + replace (Z.to_nat j) with idx by lia. apply list_lookup_insert_eq. lia.
    + apply list_lookup_insert_ne. lia.
  - rewrite IH by done. destruct (Z.eqb_spec j (Z.of_nat idx)); [lia|done].
  - rewrite IH by done. destruct (Z.eqb_spec j (Z.of_nat idx)); [lia|done].
  - rewrite IH by done. destruct (Z.eqb_spec j (Z.of_nat idx)); [lia|done].
Qed.

Lemma mark_span_lookup (page_offset page_length table_id : Z)
    (table_chars : list Z) (span : DocumentSpan) (idx : nat) :
  length table_chars = Z.to_nat page_length -> (idx < Z.to_nat page_length)%nat ->
  mark_span page_offset page_length table_id table_chars span !! idx
  = if (span_offset span <=? page_offset + Z.of_nat idx)
       && (page_offset + Z.of_nat idx <? span_offset span + span_length span)
    then Some table_id else table_chars !! idx.
Proof.
  intros Hlen Hidx. unfold mark_span, range.
  rewrite (fold_mark_lookup (span_offset span)) by done.
  by rewrite existsb_range_cover.
Qed.

Lemma mark_table_lookup (page_offset page_length : Z) (table_chars : list Z)
    (k : Z) (t : DocumentTable) (idx : nat) :
  length table_chars = Z.to_nat page_length -> (idx < Z.to_nat page_length)%nat ->
  mark_table page_offset page_length table_chars (k, t) !! idx
  = if covers t (page_offset + Z.of_nat idx) then Some k else table_chars !! idx.
Proof.
  intros Hlen Hidx. unfold mark_table, covers.
  revert table_chars Hlen. induction (table_spans t) as [|s l IH]; intros tc Hlen; [done|].
  cbn [fold_left existsb]. rewrite IH by (by rewrite mark_span_length).
  destruct (existsb _ l); [by rewrite orb_true_r|]. rewrite orb_false_r.
  by apply mark_span_lookup.
Qed.

Lemma fold_mark_table_lookup (page_offset page_length : Z)
    (entries : list (Z * DocumentTable)) (table_chars : list Z) (idx : nat) (d : Z) :
  length table_chars = Z.to_nat page_length -> (idx < Z.to_nat page_length)%nat ->
  table_chars !! idx = Some d ->
  fold_left (mark_table page_offset page_length) entries table_chars !! idx
  = Some (last_covering (page_offset + Z.of_nat idx) entries d).
Proof.
  intros Hlen Hidx. unfold last_covering. revert table_chars d Hlen.
  induction entries as [|[k t] l IH]; intros tc d Hlen Hd; [done|].
  cbn [fold_left]. apply IH; [by rewrite mark_table_length|].
  rewrite mark_table_lookup by done. cbn [fst snd].
  by destruct (covers t _).
Qed.

(** X8. The mark of a character of the page is the local id of the last
    selected table one of whose spans holds the character's offset, and -1
    when none does: where selected tables overlap, the one later in the
    list takes the character. *)
Theorem marks_last_covering_table (page_offset page_length : Z)
    (tabs : list DocumentTable) (idx : nat) :
  (idx < Z.to_nat page_length)%nat ->
  mark_tables page_offset page_length tabs !! idx
  = Some (last_covering (page_offset + Z.of_nat idx) (enumerate tabs) (-1)).
Proof.
  intros Hidx. unfold mark_tables.
  apply fold_mark_table_lookup; [by rewrite length_replicate|done|].
  by apply lookup_replicate_2.
Qed.

Lemma marks_last_covering_table_witness :
  mark_tables 0 6 (default [] (tables Sample.overlapping_tables)) !! 2%nat = Some 1
  /\ mark_tables 0 6 (default [] (tables Sample.overlapping_tables)) !! 1%nat = Some 0
  /\ mark_tables 0 6 (default [] (tables Sample.overlapping_tables)) !! 5%nat = Some (-1).
Proof.
  split; [|split].
  - etrans; [apply (marks_last_covering_table 0 6 _ 2); simpl; lia|reflexivity].
  - etrans; [apply (marks_last_covering_table 0 6 _ 1); simpl; lia|reflexivity].
  - etrans; [apply (marks_last_covering_table 0 6 _ 5); simpl; lia|reflexivity].
Defined.

(** ** Roles under a table *)

Lemma scan_roles_ext (content_ : string) (rs re rs' re' : gmap Z string)
    (page_offset : Z) (tabs : list DocumentTable) (l : list (Z * Z))
    (st : string * gset Z) :
  Forall (fun e => e.2 = -1 ->
                   rs !! (page_offset + e.1) = rs' !! (page_offset + e.1)
                   /\ re !! (page_offset + e.1) = re' !! (page_offset + e.1)) l ->
  scan content_ rs re page_offset tabs l st = scan content_ rs' re' page_offset tabs l st.
Proof.
  intros Hl. revert st. induction Hl as [|[idx tid] l He Hl IH]; intros [txt added]; [done|].
  rewrite !scan_cons.
  assert (scan_step content_ rs re page_offset tabs (txt, added) (idx, tid)
          = scan_step content_ rs' re' page_offset tabs (txt, added) (idx, tid)) as ->.
  { destruct (decide (tid = -1)) as [->|Hne].
    - destruct (He eq_refl) as [H1 H2]. cbn [fst] in H1, H2.
      rewrite !scan_step_plain. unfold html_role_at. by rewrite H1, H2.
    - destruct (decide (tid ∈ added)).
      + by rewrite !scan_step_table_seen.
      + by rewrite !scan_step_table_new. }
  destruct (scan_step _ _ _ _ _ _ _) as [st'|err]; [|done].
  rewrite !bind_Ok. apply IH.
Qed.

Lemma Forall_enumerate_lookup {A : Type} (P : Z * A -> Prop) (n : Z) (l : list A) :
  (forall (i : nat) x, l !! i = Some x -> P (n + Z.of_nat i, x)) ->
  Forall P (enumerate_from n l).
Proof.
  revert n. induction l as [|x l IH]; intros n H; cbn [enumerate_from]; [constructor|].
  constructor.
  - specialize (H 0%nat x eq_refl). by rewrite Z.add_0_r in H.
  - apply IH. intros i y Hy. specialize (H (S i) y Hy).
    by replace (n + 1 + Z.of_nat i) with (n + Z.of_nat (S i)) by lia.
Qed.

(** X9. A role boundary acts on the text of a page only at an unmarked
    character of that page: two pairs of role dicts that agree at the
    offsets of the unmarked characters give the same page text, so a start
    or an end recorded at an offset under a table, or outside the page,
    emits no tag on it. *)
Theorem roles_count_at_unmarked_only (results : AnalyzeResult)
    (rs re rs' re' : gmap Z string) (page_num : Z) (page : DocumentPage)
    (tabs : list DocumentTable) (sp : DocumentSpan) :
  tables_on_page results page_num = Ok tabs ->
  page_span page = Some sp ->
  (forall idx : nat,
     mark_tables (span_offset sp) (span_length sp) tabs !! idx = Some (-1) ->
     rs !! (span_offset sp + Z.of_nat idx) = rs' !! (span_offset sp + Z.of_nat idx)
     /\ re !! (span_offset sp + Z.of_nat idx) = re' !! (span_offset sp + Z.of_nat idx)) ->
  page_text_of results rs re page_num page = page_text_of results rs' re' page_num page.
Proof.
  intros Ht Hs Hagree. rewrite !(page_text_of_scan _ _ _ _ _ _ _ Ht Hs).
  rewrite (scan_roles_ext _ rs re rs' re'); [done|].
  unfold enumerate. apply Forall_enumerate_lookup.
  intros i x Hx Hm. cbn [fst snd] in *. subst x. rewrite Z.add_0_l. by apply Hagree.
Qed.

Lemma roles_count_at_unmarked_only_witness :
  page_text_of Sample.overlapping_tables (<[1 := "title"]> ∅) (<[3 := "title"]> ∅)
    0 (Sample.page 0 6)
  = page_text_of Sample.overlapping_tables ∅ ∅ 0 (Sample.page 0 6).
Proof.
  apply (roles_count_at_unmarked_only Sample.overlapping_tables
           (<[1 := "title"]> ∅) (<[3 := "title"]> ∅) ∅ ∅ 0 (Sample.page 0 6)
           (default [] (tables Sample.overlapping_tables)) (Sample.span 0 6)).
  - reflexivity.
  - reflexivity.
  - intros idx. cbn [Sample.span span_offset span_length].
    change (mark_tables 0 6 (default [] (tables Sample.overlapping_tables)))
      with [-1; 0; 1; 1; -1; -1].
    destruct idx as [|[|[|[|[|[|idx]]]]]]; simpl; intros H; try discriminate;
      by rewrite !lookup_insert_ne by lia.
Defined.

(** ** The cells of a table *)

Lemma filter_perm {A : Type} (f : A -> bool) (l l' : list A) :
  l ≡ₚ l' -> List.filter f l ≡ₚ List.filter f l'.
Proof.
  induction 1 as [|x l l' _ IH|x y l|l l' l'' _ IH1 _ IH2]; simpl.
  - done.
  - destruct (f x); [by constructor|done].
  - destruct (f x), (f y); try done. apply Permutation_swap.
  - by etrans.
Qed.

Lemma filter_filter_implied {A : Type} (f g : A -> bool) (l : list A) :
  (forall x, f x = true -> g x = true) ->
  List.filter f (List.filter g l) = List.filter f l.
Proof.
  intros H. induction l as [|x l IH]; [done|]. simpl.
  destruct (g x) eqn:Hg; simpl.
  - by rewrite IH.
  - destruct (f x) eqn:Hf; [|done]. by rewrite (H x Hf) in Hg.
Qed.

Lemma fmap_inj_on {A B : Type} (f : A -> B) (l : list A) (x y : A) :
  NoDup (f <$> l) -> x ∈ l -> y ∈ l -> f x = f y -> x = y.
Proof.
  induction l as [|a l IH]; [by intros _ ?%elem_of_nil|].
  rewrite fmap_cons. intros [Ha Hl]%NoDup_cons [->|Hx]%elem_of_cons [->|Hy]%elem_of_cons Hf.
  - done.
  - exfalso. apply Ha. rewrite Hf. by apply list_elem_of_fmap_2.
  - exfalso. apply Ha. rewrite <- Hf. by apply list_elem_of_fmap_2.
  - by apply IH.
Qed.

Lemma sorted_perm_eq {A : Type} (key : A -> Z) (l l' : list A) :
  l ≡ₚ l' ->
  (forall x y, x ∈ l -> y ∈ l -> key x = key y -> x = y) ->
  sorted key l = sorted key l'.
Proof.
  intros Hp Hinj.
  apply (StronglySorted_unique_strong (key_le key));
    [|apply sorted_sorted|apply sorted_sorted|by rewrite !sorted_perm].
  intros x y Hx Hy Hxy Hyx. rewrite sorted_perm in Hx. rewrite sorted_perm, <- Hp in Hy.
  apply Hinj; [done|done|]. unfold key_le in *. lia.
Qed.

(** X10. When no two cells of a table stand at the same (row, column)
    position, the order in which [table.cells] lists them does not matter:
    any rearrangement of the cells renders to the same HTML. *)
Theorem cell_order_is_irrelevant (table : DocumentTable) (cs : list DocumentTableCell) :
  cells table ≡ₚ cs ->
  NoDup (cell_position <$> cells table) ->
  _table_to_html (with_cells table cs) = _table_to_html table.
Proof.
  intros Hp Hnd. rewrite !table_to_html_spec. f_equal. unfold table_rows.
  cbn [cells row_count with_cells]. apply map_ext. intros i. symmetry.
  apply sorted_perm_eq; [by apply filter_perm|].
  intros x y [Hx Hrx%Z.eqb_eq]%list_elem_of_In%filter_In
               [Hy Hry%Z.eqb_eq]%list_elem_of_In%filter_In Hc.
  apply (fmap_inj_on cell_position (cells table)); [done|by apply list_elem_of_In..|].
  unfold cell_position. by rewrite Hrx, Hry, Hc.
Qed.

Lemma cell_order_is_irrelevant_witness :
  _table_to_html
    (with_cells Sample.shuffled_table
       [Sample.data_cell 0 0 None "a"; Sample.data_cell 0 1 None "b";
        Sample.data_cell 7 0 None "lost"])
  = _table_to_html Sample.shuffled_table.
Proof.
  apply (cell_order_is_irrelevant Sample.shuffled_table).
  - cbn [cells Sample.shuffled_table].
    eapply perm_trans; [apply perm_skip, perm_swap|apply perm_swap].
  - cbn [cells Sample.shuffled_table fmap list_fmap].
    repeat (apply NoDup_cons; split;
            [rewrite ?elem_of_cons, elem_of_nil; vm_compute; intuition discriminate|]).
    apply NoDup_nil_2.
Defined.

(** X11. A cell whose [row_index] is not one of [0 .. row_count-1] is left
    out of the HTML without any error; with [row_count <= 0] the result is
    the empty ["<table></table>"] whatever the cells are. *)
Theorem cells_outside_rows_are_dropped (table : DocumentTable) :
  _table_to_html (with_cells table (List.filter (in_rows table) (cells table)))
  = _table_to_html table
  /\ (row_count table <= 0 -> _table_to_html table = "<table></table>").
Proof.
  split.
  - rewrite !table_to_html_spec. f_equal. unfold table_rows, range.
    cbn [cells row_count with_cells]. apply map_ext_in.
    intros i Hi%list_elem_of_In%elem_of_seqZ. f_equal.
    apply filter_filter_implied. intros c Hc%Z.eqb_eq. unfold in_rows.
    apply andb_true_iff. rewrite Z.leb_le, Z.ltb_lt. lia.
  - intros Hrc. rewrite table_to_html_spec. unfold table_rows, range.
    by rewrite seqZ_nil.
Qed.

Lemma cells_outside_rows_are_dropped_witness :
  _table_to_html (with_cells Sample.shuffled_table
                    [Sample.data_cell 0 1 None "b"; Sample.data_cell 0 0 None "a"])
  = _table_to_html Sample.shuffled_table
  /\ _table_to_html
       {| row_count := 0; cells := [Sample.data_cell 0 0 None "a"];
          bounding_regions := []; table_spans := [] |}
     = "<table></table>".
Proof.
  split.
  - apply (proj1 (cells_outside_rows_are_dropped Sample.shuffled_table)).
  - apply (proj2 (cells_outside_rows_are_dropped
                    {| row_count := 0; cells := [Sample.data_cell 0 0 None "a"];
                       bounding_regions := []; table_spans := [] |})).
    simpl. lia.
Defined.

(** ** Escaped cell content *)

Lemma has_markup_char_app (s t : string) :
  has_markup_char (s +:+ t) = has_markup_char s || has_markup_char t.
Proof.
  induction s as [|a s IH]; [done|]. rewrite append_cons. simpl.
  by rewrite IH, orb_assoc.
Qed.

Lemma escape_char_no_markup (c : ascii) :
  has_markup_char (Spec.escape_char c) = false.
Proof. destruct c as [[] [] [] [] [] [] [] []]; reflexivity. Qed.

Lemma escape_char_free (c : ascii) :
  is_markup_char c || Ascii.eqb c "&" = false ->
  Spec.escape_char c = String c EmptyString.
Proof. destruct c as [[] [] [] [] [] [] [] []]; intros H; first [done | reflexivity]. Qed.

(** X12. In a rendered cell the content stands escaped between the opening
    and the closing tag, and the escaped content holds none of the
    characters [<], [>] and the two quotes, so it cannot close the cell or
    open a tag; a content without any of the five replaced characters is
    rendered as it is. *)
Theorem cell_content_is_escaped (table_html : string) (c : DocumentTableCell) :
  cell_html table_html c
  = table_html +:+ "<" +:+ cell_tag c
      +:+ Spec.span_attr "colspan" (column_span c)
      +:+ Spec.span_attr "rowspan" (row_span c) +:+ ">"
      +:+ html_escape (cell_content c) +:+ "</" +:+ cell_tag c +:+ ">"
  /\ has_markup_char (html_escape (cell_content c)) = false
  /\ (escape_free (cell_content c) = true ->
      html_escape (cell_content c) = cell_content c).
Proof.
  split; [|split].
  - rewrite cell_html_spec. unfold Spec.cell, cell_tag. by rewrite html_escape_spec.
  - rewrite html_escape_spec. induction (cell_content c) as [|a s IH]; [done|].
    cbn [Spec.escape]. by rewrite has_markup_char_app, escape_char_no_markup, IH.
  - rewrite html_escape_spec. induction (cell_content c) as [|a s IH]; [done|].
    cbn [Spec.escape escape_free]. intros [Ha Hs]%andb_true_iff.
    apply negb_true_iff in Ha. by rewrite (escape_char_free _ Ha), IH.
Qed.

Lemma cell_content_is_escaped_witness :
  html_escape (cell_content (Sample.data_cell 0 0 None "plain text 1+1=2"))
  = "plain text 1+1=2".
Proof.
  apply (proj2 (proj2 (cell_content_is_escaped EmptyString
                         (Sample.data_cell 0 0 None "plain text 1+1=2")))).
  reflexivity.
Defined.

(** ** The content under a table *)

Lemma scan_content_ext (s s' : string) (rs re : gmap Z string) (page_offset : Z)
    (tabs : list DocumentTable) (l : list (Z * Z)) (st : string * gset Z) :
  Forall (fun e => e.2 = -1 ->
                   str_index s (page_offset + e.1) = str_index s' (page_offset + e.1)) l ->
  scan s rs re page_offset tabs l st = scan s' rs re page_offset tabs l st.
Proof.
  intros Hl. revert st. induction Hl as [|[idx tid] l He Hl IH]; intros [txt added]; [done|].
  rewrite !scan_cons.
  assert (scan_step s rs re page_offset tabs (txt, added) (idx, tid)
          = scan_step s' rs re page_offset tabs (txt, added) (idx, tid)) as ->.
  { destruct (decide (tid = -1)) as [->|Hne].
    - specialize (He eq_refl). cbn [fst] in He.
      rewrite !scan_step_plain. by rewrite He.
    - destruct (decide (tid ∈ added)).
      + by rewrite !scan_step_table_seen.
      + by rewrite !scan_step_table_new. }
  destruct (scan_step _ _ _ _ _ _ _) as [st'|err]; [|done].
  rewrite !bind_Ok. apply IH.
Qed.

(** X13. The characters of a page that a table covers are never read: a
    content that differs only at offsets marked with a table (or outside
    the page) gives the same page text, so nothing of the text under a
    table reaches the output beside the table's HTML. *)
Theorem content_under_tables_is_not_read (results : AnalyzeResult) (s' : string)
    (rs re : gmap Z string) (page_num : Z) (page : DocumentPage)
    (tabs : list DocumentTable) (sp : DocumentSpan) :
  tables_on_page results page_num = Ok tabs ->
  page_span page = Some sp ->
  (forall idx : nat,
     mark_tables (span_offset sp) (span_length sp) tabs !! idx = Some (-1) ->
     str_index (content results) (span_offset sp + Z.of_nat idx)
     = str_index s' (span_offset sp + Z.of_nat idx)) ->
  page_text_of (with_content results s') rs re page_num page
  = page_text_of results rs re page_num page.
Proof.
  intros Ht Hs Hagree.
  rewrite (page_text_of_scan results _ _ _ _ _ _ Ht Hs).
  rewrite (page_text_of_scan (with_content results s') _ _ _ _ tabs sp) by done.
  cbn [content with_content]. rewrite (scan_content_ext s' (content results)); [done|].
  unfold enumerate. apply Forall_enumerate_lookup.
  intros i x Hx Hm. cbn [fst snd] in *. subst x. rewrite Z.add_0_l.
  symmetry. by apply Hagree.
Qed.

Lemma content_under_tables_is_not_read_witness :
  page_text_of (with_content Sample.overlapping_tables "a<&>ef") ∅ ∅ 0 (Sample.page 0 6)
  = page_text_of Sample.overlapping_tables ∅ ∅ 0 (Sample.page 0 6).
Proof.
  apply (content_under_tables_is_not_read Sample.overlapping_tables "a<&>ef" ∅ ∅ 0
           (Sample.page 0 6) (default [] (tables Sample.overlapping_tables))
           (Sample.span 0 6)).
  - reflexivity.
  - reflexivity.
  - intros idx. cbn [Sample.span span_offset span_length].
    change (mark_tables 0 6 (default [] (tables Sample.overlapping_tables)))
      with [-1; 0; 1; 1; -1; -1].
    destruct idx as [|[|[|[|[|[|idx]]]]]]; simpl; intros H; try discriminate;
      reflexivity.
Defined.

(** ** Results the code can always reconstruct *)

Lemma list_index_in_range {A : Type} (l : list A) (i : Z) :
  0 <= i < Z.of_nat (length l) -> exists x, list_index l i = Ok x.
Proof.
  intros Hi. destruct (lookup_lt_is_Some_2 l (Z.to_nat i)) as [x Hx]; [lia|].
  exists x. rewrite <- (Z2Nat.id i) by lia. by apply list_index_nat.
Qed.

Lemma scan_total (content_ : string) (rs re : gmap Z string) (page_offset : Z)
    (tabs : list DocumentTable) (l : list (Z * Z)) (st : string * gset Z) :
  Forall (fun e => mark_ok (Z.of_nat (length tabs)) e.2
                   /\ 0 <= page_offset + e.1 < Z.of_nat (String.length content_)) l ->
  exists st', scan content_ rs re page_offset tabs l st = Ok st'.
Proof.
  intros Hl. revert st. induction Hl as [|[idx tid] l [Hm Hp] Hl IH]; intros [txt added].
  - by eexists.
  - cbn [fst snd] in Hm, Hp. rewrite scan_cons.
    assert (exists st', scan_step content_ rs re page_offset tabs (txt, added) (idx, tid)
                        = Ok st') as [st' ->].
    { destruct (decide (tid = -1)) as [->|Hne].
      - rewrite scan_step_plain. destruct (str_index_Ok content_ (page_offset + idx))
          as [c ->]; [done|]. by eexists.
      - destruct (decide (tid ∈ added)).
        + rewrite scan_step_table_seen by done. by eexists.
        + rewrite scan_step_table_new by done.
          destruct (list_index_in_range tabs tid) as [t ->];
            [by destruct Hm|by eexists]. }
    rewrite bind_Ok. apply IH.
Qed.

Lemma page_text_of_total (results : AnalyzeResult) (rs re : gmap Z string)
    (page_num : Z) (page : DocumentPage) :
  well_formed results -> page ∈ pages results ->
  exists txt, page_text_of results rs re page_num page = Ok txt.
Proof.
  intros (_ & Hts & Hpages) Hin. destruct (Hpages page Hin) as (sp & Hs & Hpo & Hpl).
  assert (exists tabs, tables_on_page results page_num = Ok tabs) as [tabs Ht].
  { destruct (tables results) as [ts|] eqn:Htabs.
    - rewrite (tables_on_page_select _ _ _ Htabs). apply select_tables_total.
      intros t Hinl. by apply (Hts ts).
    - rewrite (tables_on_page_None _ _ Htabs). by eexists. }
  rewrite (page_text_of_scan _ _ _ _ _ _ _ Ht Hs).
  destruct (scan_total (content results) rs re (span_offset sp) tabs
              (enumerate (mark_tables (span_offset sp) (span_length sp) tabs))
              (EmptyString, ∅)) as [st ->]; [|by eexists].
  unfold enumerate. apply Forall_enumerate_lookup. intros i x Hx. cbn [fst snd]. split.
  - pose proof (mark_tables_ok (span_offset sp) (span_length sp) tabs) as Hok.
    rewrite Forall_forall in Hok. apply Hok. by eapply list_elem_of_lookup_2.
  - apply lookup_lt_Some in Hx. rewrite mark_tables_length in Hx. lia.
Qed.

Lemma page_loop_total (results : AnalyzeResult) (rs re : gmap Z string)
    (l : list DocumentPage) (n : Z) (st : list PageRecord * Z) :
  well_formed results -> (forall page, page ∈ l -> page ∈ pages results) ->
  exists st', for_each (page_step results rs re) (enumerate_from n l) st = Ok st'.
Proof.
  intros Hwf. revert n st. induction l as [|p l IH]; intros n [pm off] Hl; [by eexists|].
  cbn [enumerate_from]. rewrite for_each_cons, page_step_eq.
  destruct (page_text_of_total results rs re n p Hwf) as [txt ->]; [apply Hl; left|].
  rewrite !bind_Ok. apply IH. intros page Hp. apply Hl. by right.
Qed.

(** X14. When every paragraph and every page has a span, every table has a
    bounding region and every page span lies inside the content at a
    non-negative offset, the reconstruction raises nothing: the call
    returns a page map with one record per page. *)
Theorem well_formed_result_succeeds (svc : string -> string -> result AnalyzeResult)
    (fmt : exn -> string) (url : string) (layout : bool) (results : AnalyzeResult) :
  svc (if layout then "prebuilt-layout" else "prebuilt-read") url = Ok results ->
  well_formed results ->
  exists page_map,
    begin_analyze_document_from_url svc fmt url layout = Ok page_map
    /\ length page_map = length (pages results).
Proof.
  intros Hsvc Hwf. rewrite begin_analyze_attempt. unfold attempt.
  rewrite Hsvc, bind_Ok.
  assert (exists page_map, reconstruct results = Ok page_map) as [pm Hpm].
  { unfold reconstruct.
    assert (exists roles, index_roles results = Ok roles) as [[rs re] ->].
    { destruct (paragraphs results) as [ps|] eqn:Hps.
      - rewrite (index_roles_for_each _ _ Hps). apply index_loop_total.
        intros p Hp. by apply (proj1 Hwf ps).
      - unfold index_roles. rewrite Hps. by eexists. }
    rewrite bind_Ok. cbn [fst snd].
    destruct (page_loop_total results rs re (pages results) 0 ([], 0) Hwf)
      as [[pm off] Hl]; [done|].
    unfold enumerate. rewrite Hl. by eexists. }
  rewrite Hpm. exists pm. split; [done|]. by apply reconstruct_length.
Qed.

Lemma well_formed_result_succeeds_witness :
  exists page_map,
    begin_analyze_document_from_url (Sample.serve Sample.lone_title)
      Sample.no_trace "https://example/doc.pdf" true = Ok page_map
    /\ length page_map = 1%nat.
Proof.
  apply (well_formed_result_succeeds (Sample.serve Sample.lone_title)
           Sample.no_trace "https://example/doc.pdf" true Sample.lone_title eq_refl).
  split; [|split].
  - intros ps p [= <-] Hp. apply list_elem_of_singleton in Hp as ->. discriminate.
  - intros ts t [=].
  - intros page Hp. apply list_elem_of_singleton in Hp as ->.
    exists (Sample.span 0 15). split; [reflexivity|]. simpl. lia.
Defined.
